(** * Pre-breakout scanner: batch scheduling, signal evaluation, alert state

    A shallow embedding of [scanner.py].  Prices are binary64 floats, as in
    Python; volumes and thresholds are integers; the alert history is a
    dictionary keyed by ticker; the hot list is a set.  Calls to the outside
    world (price history, sentiment, headlines, webhook, clock, state file)
    are read from an explicit [World] record, and code that can raise
    returns an [outcome].  The two credentials are taken to be present (the
    module exits at import otherwise); messages are kept as the values the
    source formats into them, not as text; the state file holds the
    document [json.dump] was given. *)

From Stdlib Require Import ZArith Floats Uint63 Lia.
From stdpp Require Import gmap strings list sorting.

#[local] Set Warnings "-clear-no-such-hyp".
Local Open Scope Z_scope.

(** ** Exceptions *)

(** The exceptions [except Exception] catches. *)
Inductive exn : Type :=
  | ValueError      (* int() of a NaN or an infinity *)
  | IndexError      (* list index out of range *)
  | ZeroDivisionError
  | ProviderError.  (* a network or provider call failed *)

Inductive outcome (A : Type) : Type :=
  | Raise (e : exn)
  | Return (a : A).
Arguments Raise {A} e.
Arguments Return {A} a.

#[global] Instance outcome_bind : MBind outcome := fun A B k m =>
  match m with
  | Raise e => Raise e
  | Return a => k a
  end.

(** How a run can end early: an exception nothing catches, or
    [raise SystemExit(...)], which [except Exception] would not catch. *)
Inductive abort : Type :=
  | Uncaught (e : exn)
  | SystemExit.

Inductive ended (A : Type) : Type :=
  | Aborted (why : abort)
  | Completed (a : A).
Arguments Aborted {A} why.
Arguments Completed {A} a.

(** ** Configuration constants *)

Definition MAX_TICKERS : nat := 1000.
Definition BATCH_SIZE : nat := 50.
Definition GAP_THRESHOLD : float := 3.0%float.
(** 2.0 in the source.  Volumes and their average are integers there
    ([int(...)]); the product and the comparison with today's volume are
    exact on integers of that size, and are taken over [Z] here. *)
Definition VOLUME_MULTIPLIER : Z := 2.
Definition BREAKOUT_LOOKBACK : nat := 20.
Definition SENTIMENT_POSITIVE : float := 0x1.999999999999ap-3%float. (* 0.2 *)
Definition THRESHOLDS : list Z := [5; 10; 20].
Definition WINDOW_SECONDS : Z := 300.
Definition DAY_SECONDS : Z := 24 * 3600.

(** ** Floats as Python uses them *)

Module Py.

(** [x or d] on floats: zero (of either sign) is falsy, NaN is truthy. *)
Definition float_or (x d : float) : float :=
  if PrimFloat.eqb x 0%float then d else x.

(** The exact integer [n] with [value x = n * 2^e] for a finite float. *)
Definition signed (s : bool) (m : positive) : Z :=
  if s then Z.neg m else Z.pos m.

(** [int(x // d)] for a float [x] and a positive integer [d]: the floor of
    the exact quotient, which is what Python computes for a clock reading;
    [int] raises on NaN and on infinities. *)
Definition int_floordiv (x : float) (d : Z) : outcome Z :=
  match Prim2SF x with
  | S754_zero _ => Return 0
  | S754_finite s m e =>
      Return (if 0 <=? e then (signed s m * 2 ^ e) / d
              else signed s m / (d * 2 ^ (- e)))
  | S754_infinity _ | S754_nan => Raise ValueError
  end.

(** [int(x)]: truncation towards zero. *)
Definition int_of_float (x : float) : outcome Z :=
  match Prim2SF x with
  | S754_zero _ => Return 0
  | S754_finite s m e =>
      Return (if 0 <=? e then signed s m * 2 ^ e
              else Z.quot (signed s m) (2 ^ (- e)))
  | S754_infinity _ | S754_nan => Raise ValueError
  end.

(** An integer read as a float, for the comparison [change_pct >= th];
    exact for the integers below 2^53, which the thresholds are. *)
Definition float_of_Z (z : Z) : float :=
  if z <? 0 then PrimFloat.opp (PrimFloat.of_uint63 (Uint63.of_Z (- z)))
  else PrimFloat.of_uint63 (Uint63.of_Z z).

(** [range(start, stop, step)] for a positive step. *)
Fixpoint range_from (fuel start stop step : nat) : list nat :=
  match fuel with
  | O => []
  | S fuel' =>
      if (start <? stop)%nat
      then start :: range_from fuel' (start + step) stop step
      else []
  end.

Definition range (start stop step : nat) : list nat :=
  range_from stop start stop step.

(** [l[i:j]] for [0 <= i <= j]. *)
Definition slice {A} (l : list A) (i j : nat) : list A :=
  take (j - i) (drop i l).

End Py.

(** ** Batch scheduler *)

(** [batches = [tickers[i:i+B] for i in range(0, len(tickers), B)]] *)
Definition chunks {A} (B : nat) (l : list A) : list (list A) :=
  map (fun i => Py.slice l i (i + B)) (Py.range 0 (length l) B).

(** The part of [batches_for_run] after the slot has been read:
    [idx = slot % len(batches); return batches[idx], idx, len(batches)]. *)
Definition batch_for_slot {A} (B : nat) (tickers : list A) (slot : Z)
  : outcome (list A * Z * Z) :=
  let batches := chunks B tickers in
  match batches with
  | [] => Raise ZeroDivisionError
  | _ =>
      let idx := slot mod Z.of_nat (length batches) in
      match batches !! Z.to_nat idx with
      | Some b => Return (b, idx, Z.of_nat (length batches))
      | None => Raise IndexError
      end
  end.

(** [slot = int(time.time() // 300)] *)
Definition slot_of_time (now : float) : outcome Z :=
  Py.int_floordiv now WINDOW_SECONDS.

Definition batches_for {A} (B : nat) (now : float) (tickers : list A)
  : outcome (list A * Z * Z) :=
  match tickers with
  | [] => Return ([], 0, 0)
  | _ => slot ← slot_of_time now; batch_for_slot B tickers slot
  end.

Definition batches_for_run (now : float) (tickers : list string)
  : outcome (list string * Z * Z) :=
  batches_for BATCH_SIZE now tickers.

(** ** Daily history *)

(** One row of the frame [yfinance] returns.  Prices are floats and may be
    NaN; a missing volume (NaN in the frame) is [None]. *)
Record Bar : Type := {
  Open : float;
  High : float;
  Low : float;
  Close : float;
  Volume : option Z
}.

Module Pd.

Definition is_nan (x : float) : bool := negb (PrimFloat.eqb x x).

(** [s.tail(n)] *)
Definition tail {A} (n : nat) (s : list A) : list A :=
  drop (length s - n) s.

(** [s.shift(1)]: every value moves one row down, the first row is NaN and
    the last value is dropped. *)
Definition shift1 (s : list float) : list float :=
  take (length s) (nan :: s).

(** [s.dropna()] *)
Definition dropna (s : list (option Z)) : list Z := omap id s.

Definition fmax (a b : float) : float :=
  if PrimFloat.ltb a b then b else a.

(** [s.max()]: NaN entries are skipped; NaN when nothing is left. *)
Definition max (s : list float) : float :=
  match List.filter (fun x => negb (is_nan x)) s with
  | [] => nan
  | x :: xs => foldl fmax x xs
  end.

Definition sum (s : list Z) : Z := foldr Z.add 0 s.

(** [int(s.mean())]: the mean is taken exactly and truncated towards zero,
    the rounding of the float quotient being left out (it cannot reach the
    next integer for sums of share volumes); the mean of an empty series is
    NaN, on which [int] raises. *)
Definition int_mean (s : list Z) : outcome Z :=
  match s with
  | [] => Raise ValueError
  | _ => Return (Z.quot (sum s) (Z.of_nat (length s)))
  end.

End Pd.

(** ** Alert records *)

(** [alerts_sent[ticker]] is a dictionary in which either key may be absent. *)
Record AlertRec : Type := {
  thresholds : option (list Z);
  prebreak : option bool
}.

Definition empty_rec : AlertRec := {| thresholds := None; prebreak := None |}.

Abbreviation Alerts := (gmap string AlertRec).

(** [alerts_sent.get(ticker, {}).get("thresholds", [])] *)
Definition recorded_thresholds (alerts_sent : Alerts) (ticker : string) : list Z :=
  default [] (thresholds (default empty_rec (alerts_sent !! ticker))).

(** [alerts_sent.get(ticker, {}).get("prebreak", False)] *)
Definition recorded_prebreak (alerts_sent : Alerts) (ticker : string) : bool :=
  default false (prebreak (default empty_rec (alerts_sent !! ticker))).

(** ** The outside world *)

(** A news item, typed as the provider documents it: a headline and a
    source, both strings, so that formatting a message cannot fail. *)
Record Headline : Type := { headline : string; source : string }.

(** A trigger description, with the numbers the source formats into it. *)

Inductive trigger : Type :=
  | Gap (pct : float)
  | UnusualVol (vol avg : Z)
  | Breakout (high20 : float)
  | PositiveSentiment (score : float).

(** The subject line of a message, by the two formats [main] builds. *)
Inductive Subject : Type :=
  | ThresholdSubject (ticker : string) (change_pct : float) (th : Z)
  | PrebreakSubject (ticker : string) (triggers : list trigger) (change_pct : float).

(** Writing the state file: it succeeds, or [open] fails and the file is left
    as it was, or [json.dump] fails after [open] has emptied the file. *)
Inductive write_outcome : Type := WriteOk | OpenFails | DumpFails.

(** The message body: the numbers and headlines the source formats into it
    (the text itself, its time stamp and its cut at 1900 characters are
    left out). *)
Record Body : Type := {
  b_price : float;
  b_change_pct : float;
  b_triggers : option (list trigger);
  b_vol : Z;
  b_avg_vol : Z;
  b_headlines : list Headline
}.

(** What one run reads from outside: the provider answers per ticker (the
    same answer for a ticker throughout the run), the webhook's HTTP status
    per message, the symbol list after the sanitising loop of
    [get_tickers], the clock at the start and at the end of the run, and how
    writing the state file ends. *)
Record World : Type := {
  yf_history : string -> outcome (list Bar);
  sentiment_http : string -> outcome (Z * option float);
  news_http : string -> outcome (Z * option (list Headline));
  discord_http : Subject -> Body -> outcome Z;
  symbols_http : outcome (list string);
  clock : float;
  clock_end : float;
  write_result : write_outcome
}.

(** [fetch_news_sentiment]: the bullish percentage over 100 when the answer
    has status 200 and carries one, [None] otherwise and on any exception. *)
Definition fetch_news_sentiment (w : World) (ticker : string) : option float :=
  match sentiment_http w ticker with
  | Raise _ => None
  | Return (status, bp) =>
      if status =? 200 then (fun b => PrimFloat.div b 100%float) <$> bp else None
  end.

(** [fetch_news_headlines]: the first three items of a list answer. *)
Definition fetch_news_headlines (w : World) (ticker : string) : list Headline :=
  match news_http w ticker with
  | Raise _ => []
  | Return (status, data) =>
      if status =? 200 then take 3 (default [] data) else []
  end.

(** [send_discord]: true exactly on status 200 or 204; never raises. *)
Definition send_discord (w : World) (subject : Subject) (body : Body) : bool :=
  match discord_http w subject body with
  | Raise _ => false
  | Return status => (status =? 200) || (status =? 204)
  end.

(** ** Signal evaluator *)

Record Result : Type := {
  r_ticker : string;
  price : float;
  change_pct : float;
  vol : Z;
  avg_vol : Z;
  triggers : list trigger;
  new_thresholds : list Z;
  pos_news : bool;
  sentiment : option float;
  prebreak_hit : bool
}.

Definition pct_over (x prev_close : float) : float :=
  ((x - prev_close) / prev_close * 100)%float.

(** [avg_vol]: the mean of the last 30 volumes when there are at least 5,
    otherwise the mean of whatever there is, and 0 when there is none. *)
Definition average_volume (vol_series : list Z) : outcome Z :=
  if (5 <=? length vol_series)%nat
  then Pd.int_mean (Pd.tail 30 vol_series)
  else if (0 <? length vol_series)%nat
       then Pd.int_mean vol_series
       else Return 0.

(** [high20]: set only when the frame has [BREAKOUT_LOOKBACK + 1] rows. *)
Definition recent_high (hist : list Bar) : option float :=
  if (BREAKOUT_LOOKBACK + 1 <=? length hist)%nat
  then Some (Pd.max (Pd.tail BREAKOUT_LOOKBACK (Pd.shift1 (map High hist))))
  else None.

Definition is_breakout (high20 : option float) (price : float) : bool :=
  match high20 with
  | Some h => PrimFloat.ltb h price
  | None => false
  end.

(** The thresholds reached by [change_pct] and not recorded yet. *)
Definition fresh_thresholds (change_pct : float) (prev_thresholds : gset Z)
  : list Z :=
  List.filter
    (fun th => PrimFloat.leb (Py.float_of_Z th) change_pct
               && negb (bool_decide (th ∈ prev_thresholds)))
    THRESHOLDS.

Definition is_unusual_vol (vol_today avg_vol : Z) : bool :=
  (0 <? avg_vol) && (VOLUME_MULTIPLIER * avg_vol <? vol_today).

Definition positive_news (sentiment : option float) : bool :=
  match sentiment with
  | Some s => PrimFloat.leb SENTIMENT_POSITIVE s
  | None => false
  end.

(** The list [triggers], in the order the source appends to it. *)
Definition build_triggers (open_price prev_close price : float)
    (vol_today avg_vol : Z) (high20 : option float)
    (sentiment : option float) : list trigger :=
  (if PrimFloat.leb GAP_THRESHOLD (pct_over open_price prev_close)
   then [Gap (pct_over open_price prev_close)] else [])
  ++ (if is_unusual_vol vol_today avg_vol
      then [UnusualVol vol_today avg_vol] else [])
  ++ match high20 with
     | Some h => if is_breakout high20 price then [Breakout h] else []
     | None => []
     end
  ++ match sentiment with
     | Some s => if positive_news sentiment then [PositiveSentiment s] else []
     | None => []
     end.

(** The body of the [try] in [analyze_ticker], once the frame is known to
    have at least three rows: [hist = front ++ [yesterday; today]]. *)
Definition analyze_rows (w : World) (ticker : string) (alerts_sent : Alerts)
    (hist : list Bar) (yesterday today : Bar) : outcome (option Result) :=
  let price := Py.float_or (Close today) 0 in
  let prev_close := Py.float_or (Close yesterday) 0 in
  let open_price := Py.float_or (Open today) price in
  vol_today ← match Volume today with
              | Some v => Return v
              | None => Raise ValueError
              end;
  if PrimFloat.leb prev_close 0 then Return None else
  let change_pct := pct_over price prev_close in
  let vol_series := Pd.dropna (map Volume hist) in
  avg_vol ← average_volume vol_series;
  let high20 := recent_high hist in
  let sentiment := fetch_news_sentiment w ticker in
  let pos_news := positive_news sentiment in
  let triggers := build_triggers open_price prev_close price vol_today avg_vol
                                 high20 sentiment in
  let prev_thresholds : gset Z := list_to_set (recorded_thresholds alerts_sent ticker) in
  let new_thresholds := fresh_thresholds change_pct prev_thresholds in
  let prebreak_already := recorded_prebreak alerts_sent ticker in
  let prebreak_hit := (2 <=? length triggers)%nat && negb prebreak_already in
  if negb (bool_decide (new_thresholds = [])) || prebreak_hit
  then Return (Some {| r_ticker := ticker; price := price;
                       change_pct := change_pct; vol := vol_today;
                       avg_vol := avg_vol; triggers := triggers;
                       new_thresholds := new_thresholds;
                       pos_news := pos_news; sentiment := sentiment;
                       prebreak_hit := prebreak_hit |})
  else Return None.

(** The body of the [try]: fetch the frame, give up on fewer than 3 rows. *)
Definition analyze_body (w : World) (ticker : string) (alerts_sent : Alerts)
  : outcome (option Result) :=
  hist ← yf_history w ticker;
  if (length hist <? 3)%nat then Return None else
  match last hist, last (removelast hist) with
  | Some today, Some yesterday => analyze_rows w ticker alerts_sent hist yesterday today
  | _, _ => Raise IndexError
  end.

(** [analyze_ticker]: [except Exception] turns every failure into [None]. *)
Definition analyze_ticker (w : World) (ticker : string) (alerts_sent : Alerts)
  : option Result :=
  match analyze_body w ticker alerts_sent with
  | Raise _ => None
  | Return r => r
  end.

(** ** Persisted state *)

(** The document kept in [state.json]; every key may be absent. *)
Record State : Type := {
  st_tickers : option (list string);
  st_tickers_fetched_at : option Z;
  st_alerts_sent : option Alerts;
  st_hot_list : option (list string);
  st_last_run : option Z
}.

Definition empty_state : State :=
  {| st_tickers := None; st_tickers_fetched_at := None;
     st_alerts_sent := None; st_hot_list := None; st_last_run := None |}.

Inductive File : Type :=
  | Missing
  | Corrupt
  | Stored (doc : State).

(** [load_state]: the stored document, or [{}] when the file is missing or
    cannot be parsed. *)
Definition load_state (file : File) : State :=
  match file with
  | Stored doc => doc
  | Missing | Corrupt => empty_state
  end.

(** [save_state]: a failure is printed and swallowed. *)
Definition save_state (w : World) (state : State) (file : File) : File :=
  match write_result w with
  | WriteOk => Stored state
  | OpenFails => file
  | DumpFails => Corrupt
  end.

(** [now_ts] *)
Definition now_ts (t : float) : outcome Z := Py.int_of_float t.

(** [get_tickers]: the stored universe while it is non-empty and younger
    than a day; otherwise the provider's list ([symbols_http] is the list
    [extracted] after the sanitising loop), cut to [MAX_TICKERS], stored and
    saved.  Returns the tickers with the updated document and file. *)
Definition get_tickers (w : World) (state : State) (file : File)
  : ended (list string * State * File) :=
  let refresh :=
    match symbols_http w with
    | Raise e => Aborted (Uncaught e)
    | Return [] => Aborted SystemExit
    | Return extracted =>
        let tickers := take MAX_TICKERS extracted in
        match now_ts (clock w) with
        | Raise e => Aborted (Uncaught e)
        | Return now =>
            let state' := {| st_tickers := Some tickers;
                             st_tickers_fetched_at := Some now;
                             st_alerts_sent := st_alerts_sent state;
                             st_hot_list := st_hot_list state;
                             st_last_run := st_last_run state |} in
            Completed (tickers, state', save_state w state' file)
        end
    end in
  match st_tickers state with
  | Some (t :: ts) =>
      match now_ts (clock w) with
      | Raise e => Aborted (Uncaught e)
      | Return now =>
          if now - default 0 (st_tickers_fetched_at state) <? DAY_SECONDS
          then Completed (t :: ts, state, file)
          else refresh
      end
  | _ => refresh
  end.

(** ** Run orchestrator *)

Inductive AlertLabel : Type :=
  | ThresholdLabel (th : Z)
  | PrebreakLabel.

(** A message handed to the webhook, with what [send_discord] returned. *)
Record Post : Type := {
  p_subject : Subject;
  p_body : Body;
  p_delivered : bool
}.

Record RunState : Type := {
  rs_alerts : Alerts;
  rs_hot : gset string;
  rs_alerted : list (string * AlertLabel);
  rs_posts : list Post
}.

(** [n.get('headline','')[:200]] with the source kept as it is. *)
Definition clip_headlines (news : list Headline) : list Headline :=
  map (fun n => {| headline := String.substring 0 200 (headline n);
                   source := source n |}) news.

Definition make_body (w : World) (ticker : string) (res : Result)
    (with_triggers : bool) : Body :=
  {| b_price := price res; b_change_pct := change_pct res;
     b_triggers := if with_triggers then Some (triggers res) else None;
     b_vol := vol res; b_avg_vol := avg_vol res;
     b_headlines := clip_headlines (fetch_news_headlines w ticker) |}.

(** [sorted(list(rec_thresholds))] *)
Definition sorted_levels (levels : gset Z) : list Z :=
  merge_sort Z.le (elements levels).

(** One turn of [for th in res["new_thresholds"]]. *)
Definition notify_threshold (w : World) (ticker : string) (res : Result)
    (acc : gset Z * list (string * AlertLabel) * list Post) (th : Z)
  : gset Z * list (string * AlertLabel) * list Post :=
  let '(rec_thresholds, alerted, posts) := acc in
  let subject := ThresholdSubject ticker (change_pct res) th in
  let body := make_body w ticker res false in
  let ok := send_discord w subject body in
  ({[th]} ∪ rec_thresholds,
   alerted ++ [(ticker, ThresholdLabel th)],
   posts ++ [{| p_subject := subject; p_body := body; p_delivered := ok |}]).

(** The block under [if res["new_thresholds"]]: [setdefault], the loop,
    then the sorted levels written back and the ticker put on the hot
    list. *)
Definition handle_thresholds (w : World) (ticker : string) (res : Result)
    (st : RunState) : RunState :=
  let rec := default empty_rec (rs_alerts st !! ticker) in
  let start : gset Z := list_to_set (default [] (thresholds rec)) in
  let '(rec_thresholds, alerted, posts) :=
    foldl (notify_threshold w ticker res)
          (start, rs_alerted st, rs_posts st) (new_thresholds res) in
  let rec' := {| thresholds := Some (sorted_levels rec_thresholds);
                 prebreak := prebreak rec |} in
  {| rs_alerts := <[ticker := rec']> (rs_alerts st);
     rs_hot := {[ticker]} ∪ rs_hot st;
     rs_alerted := alerted;
     rs_posts := posts |}.

(** The block under [if res.get("prebreak_hit")]: [setdefault], then the
    latch, the message and the log entry under [if not rec.get("prebreak")],
    then the hot list. *)
Definition handle_prebreak (w : World) (ticker : string) (res : Result)
    (st : RunState) : RunState :=
  let rec := default empty_rec (rs_alerts st !! ticker) in
  let st1 :=
    if default false (prebreak rec)
    then {| rs_alerts := <[ticker := rec]> (rs_alerts st);
            rs_hot := rs_hot st;
            rs_alerted := rs_alerted st;
            rs_posts := rs_posts st |}
    else
      let rec' := {| thresholds := thresholds rec; prebreak := Some true |} in
      let subject := PrebreakSubject ticker (triggers res) (change_pct res) in
      let body := make_body w ticker res true in
      let ok := send_discord w subject body in
      {| rs_alerts := <[ticker := rec']> (rs_alerts st);
         rs_hot := rs_hot st;
         rs_alerted := rs_alerted st ++ [(ticker, PrebreakLabel)];
         rs_posts := rs_posts st
                     ++ [{| p_subject := subject; p_body := body;
                            p_delivered := ok |}] |} in
  {| rs_alerts := rs_alerts st1;
     rs_hot := {[ticker]} ∪ rs_hot st1;
     rs_alerted := rs_alerted st1;
     rs_posts := rs_posts st1 |}.

(** The same block with its last line, [hot_list.add(ticker)], read as the
    last line under the inner [if]. *)
Definition handle_prebreak_inner (w : World) (ticker : string) (res : Result)
    (st : RunState) : RunState :=
  let rec := default empty_rec (rs_alerts st !! ticker) in
  if default false (prebreak rec)
  then {| rs_alerts := <[ticker := rec]> (rs_alerts st);
          rs_hot := rs_hot st;
          rs_alerted := rs_alerted st;
          rs_posts := rs_posts st |}
  else
    let rec' := {| thresholds := thresholds rec; prebreak := Some true |} in
    let subject := PrebreakSubject ticker (triggers res) (change_pct res) in
    let body := make_body w ticker res true in
    let ok := send_discord w subject body in
    {| rs_alerts := <[ticker := rec']> (rs_alerts st);
       rs_hot := {[ticker]} ∪ rs_hot st;
       rs_alerted := rs_alerted st ++ [(ticker, PrebreakLabel)];
       rs_posts := rs_posts st
                   ++ [{| p_subject := subject; p_body := body;
                          p_delivered := ok |}] |}.

Definition process_ticker_inner (w : World) (st : RunState) (ticker : string)
  : RunState :=
  match analyze_ticker w ticker (rs_alerts st) with
  | None => st
  | Some res =>
      let st1 := match new_thresholds res with
                 | [] => st
                 | _ => handle_thresholds w ticker res st
                 end in
      if prebreak_hit res then handle_prebreak_inner w ticker res st1 else st1
  end.

(** The body of [for ticker in scan_set].  [analyze_ticker] catches its
    own exceptions and nothing after it raises on records of these types,
    so the [try] around the body has nothing left to catch; [if not res:
    continue] is the [None] case. *)
Definition process_ticker (w : World) (st : RunState) (ticker : string)
  : RunState :=
  match analyze_ticker w ticker (rs_alerts st) with
  | None => st
  | Some res =>
      let st1 := match new_thresholds res with
                 | [] => st
                 | _ => handle_thresholds w ticker res st
                 end in
      if prebreak_hit res then handle_prebreak w ticker res st1 else st1
  end.

Definition scan (w : World) (scan_set : list string) (st : RunState)
  : RunState :=
  foldl (process_ticker w) st scan_set.

(** [list(dict.fromkeys(l))]: the first occurrence of each key, in order. *)
Fixpoint fromkeys (seen : gset string) (l : list string) : list string :=
  match l with
  | [] => []
  | x :: l' =>
      if bool_decide (x ∈ seen) then fromkeys seen l'
      else x :: fromkeys ({[x]} ∪ seen) l'
  end.

(** [list(dict.fromkeys(batch + list(hot_list)))]; the order in which Python
    lists a set is not specified, [elements] is one such order. *)
Definition scan_set_of (batch : list string) (hot_list : gset string)
  : list string :=
  fromkeys ∅ (batch ++ elements hot_list).

(** What [main] reads back at its start:
    [state.get("alerts_sent", {})] and [set(state.get("hot_list", []))]. *)
Definition alerts_of (state : State) : Alerts :=
  default ∅ (st_alerts_sent state).

Definition hot_list_of (state : State) : gset string :=
  list_to_set (default [] (st_hot_list state)).

(** The document [main] assembles at its end: the alerts, the hot list as a
    list, the tickers, the fetch time kept if there is one, the run time. *)
Definition closing_state (tickers : list string) (state : State)
    (st : RunState) (now : Z) : State :=
  {| st_tickers := Some tickers;
     st_tickers_fetched_at := Some (default now (st_tickers_fetched_at state));
     st_alerts_sent := Some (rs_alerts st);
     st_hot_list := Some (elements (rs_hot st));
     st_last_run := Some now |}.

(** [main]: the state file it leaves, and how the run ended: an exception of
    [get_tickers] or of the clock is not caught and ends the run; [None] is
    the early return on an empty batch; otherwise the state after the scan. *)
Definition main (w : World) (file : File)
  : File * ended (option RunState) :=
  let state := load_state file in
  let alerts_sent := alerts_of state in
  let hot_list := hot_list_of state in
  match get_tickers w state file with
  | Aborted why => (file, Aborted why)
  | Completed (tickers, state1, file1) =>
      match batches_for_run (clock w) tickers with
      | Raise e => (file1, Aborted (Uncaught e))
      | Return ([], _, _) => (file1, Completed None)
      | Return (batch, idx, total) =>
          let scan_set := scan_set_of batch hot_list in
          let st := scan w scan_set
                      {| rs_alerts := alerts_sent; rs_hot := hot_list;
                         rs_alerted := []; rs_posts := [] |} in
          match now_ts (clock_end w) with
          | Raise e => (file1, Aborted (Uncaught e))
          | Return now =>
              (save_state w (closing_state tickers state1 st now) file1,
               Completed (Some st))
          end
      end
  end.

(** ** Vocabulary of the properties *)

(** The message [main] sends for one newly crossed level. *)
Definition threshold_post (w : World) (ticker : string) (res : Result) (th : Z)
  : Post :=
  let subject := ThresholdSubject ticker (change_pct res) th in
  let body := make_body w ticker res false in
  {| p_subject := subject; p_body := body;
     p_delivered := send_discord w subject body |}.

(** The message [main] sends for a pre-breakout. *)
Definition prebreak_post (w : World) (ticker : string) (res : Result) : Post :=
  let subject := PrebreakSubject ticker (triggers res) (change_pct res) in
  let body := make_body w ticker res true in
  {| p_subject := subject; p_body := body;
     p_delivered := send_discord w subject body |}.

Definition threshold_labels (ticker : string) (res : Result)
  : list (string * AlertLabel) :=
  map (fun th => (ticker, ThresholdLabel th)) (new_thresholds res).

(** The messages and labels one ticker adds: one per new level, in the order
    of the levels, then the pre-breakout one if it fired. *)
Definition added_posts (w : World) (ticker : string) (r : option Result)
  : list Post :=
  match r with
  | None => []
  | Some res =>
      map (threshold_post w ticker res) (new_thresholds res)
      ++ (if prebreak_hit res then [prebreak_post w ticker res] else [])
  end.

Definition added_labels (ticker : string) (r : option Result)
  : list (string * AlertLabel) :=
  match r with
  | None => []
  | Some res =>
      threshold_labels ticker res
      ++ (if prebreak_hit res then [(ticker, PrebreakLabel)] else [])
  end.

(** A message about [level] of [ticker]. *)
Definition threshold_post_for (ticker : string) (level : Z) (p : Post) : Prop :=
  ∃ c, p_subject p = ThresholdSubject ticker c level.



(** The messages a run has added to what was posted before it. *)
Definition posted_since (before after : RunState) : list Post :=
  drop (length (rs_posts before)) (rs_posts after).

Definition alerted_since (before after : RunState)
  : list (string * AlertLabel) :=
  drop (length (rs_alerted before)) (rs_alerted after).

(** The same world with another webhook. *)
Definition with_discord (w : World) (d : Subject -> Body -> outcome Z) : World :=
  {| yf_history := yf_history w; sentiment_http := sentiment_http w;
     news_http := news_http w; discord_http := d;
     symbols_http := symbols_http w; clock := clock w;
     clock_end := clock_end w; write_result := write_result w |}.

(** A key that orders the floats other than NaN as the comparison does:
    by sign class, then exponent, then mantissa. *)
Definition sf_key (x : spec_float) : Z * Z * Z :=
  match x with
  | S754_zero _ => (0, 0, 0)
  | S754_infinity s => (if s then -2 else 2, 0, 0)
  | S754_nan => (0, 0, 0)
  | S754_finite s m e => if s then (-1, - e, Z.neg m) else (1, e, Z.pos m)
  end.

(** The order of the keys. *)
Definition lex_lt (x y : Z * Z * Z) : Prop :=
  x.1.1 < y.1.1
  ∨ (x.1.1 = y.1.1 ∧ (x.1.2 < y.1.2 ∨ (x.1.2 = y.1.2 ∧ x.2 < y.2))).

(** The [n] rows just before the last one. *)
Definition prior_bars (n : nat) (hist : list Bar) : list Bar :=
  take n (drop (length hist - (n + 1)) hist).

Definition has_breakout (trs : list trigger) : bool :=
  existsb (fun t => match t with Breakout _ => true | _ => false end) trs.


(** ** Sample inputs *)

Module Sample.

Definition prior_bar : Bar :=
  {| Open := 100; High := 105; Low := 99; Close := 100;
     Volume := Some 840000 |}.

Definition today_bar : Bar :=
  {| Open := 104; High := 107; Low := 103; Close := 106;
     Volume := Some 5000000 |}.

(** 25 earlier rows with highs of 105 and a last close of 100, then today:
    open 104, close 106, volume 5,000,000; the mean volume is 1,000,000. *)
Definition hist : list Bar := replicate 25 prior_bar ++ [today_bar].


(** As [hist], but today's volume is missing. *)
Definition gap_hist : list Bar :=
  replicate 25 prior_bar
  ++ [ {| Open := 104; High := 107; Low := 103; Close := 106;
          Volume := None |} ].

(** A world in which every ticker but ["BAD"] has the history [h], the
    history of ["BAD"] cannot be fetched, there is no sentiment and no
    news, and the webhook answers [status]. *)
Definition world (h : list Bar) (status : Z) : World :=
  {| yf_history := fun t => if String.eqb t "BAD" then Raise ProviderError
                            else Return h;
     sentiment_http := fun _ => Raise ProviderError;
     news_http := fun _ => Raise ProviderError;
     discord_http := fun _ _ => Return status;
     symbols_http := Return ["AAA"; "BBB"];
     clock := 1700000000.5; clock_end := 1700000060.25;
     write_result := WriteOk |}.

Definition fresh : RunState :=
  {| rs_alerts := ∅; rs_hot := ∅; rs_alerted := []; rs_posts := [] |}.

(** ["AAA"] has level 5 recorded and its latch set. *)
Definition seen : RunState :=
  {| rs_alerts := <["AAA" := {| thresholds := Some [5];
                                prebreak := Some true |}]> ∅;
     rs_hot := {["AAA"]}; rs_alerted := []; rs_posts := [] |}.

(** ["AAA"] has its latch set and no level recorded. *)
Definition latched : RunState :=
  {| rs_alerts := <["AAA" := {| thresholds := None;
                                prebreak := Some true |}]> ∅;
     rs_hot := {["AAA"]}; rs_alerted := []; rs_posts := [] |}.

Definition surge_bar : Bar :=
  {| Open := 104; High := 113; Low := 103; Close := 112;
     Volume := Some 5000000 |}.

(** As [hist], with a close of 112: a change of 12 percent. *)
Definition surge_hist : list Bar := replicate 25 prior_bar ++ [surge_bar].

End Sample.

(** ** The sanitising loop of [get_tickers] *)

Module Text.

(** ASCII white space, as [str.strip] removes it. *)
Definition is_space (c : Ascii.ascii) : bool :=
  let n := Ascii.nat_of_ascii c in
  ((9 <=? n)%nat && (n <=? 13)%nat) || ((28 <=? n)%nat && (n <=? 32)%nat).

Fixpoint lstrip (s : list Ascii.ascii) : list Ascii.ascii :=
  match s with
  | c :: s' => if is_space c then lstrip s' else s
  | [] => []
  end.

(** [s.strip()] on ASCII text. *)
Definition strip (s : string) : string :=
  String.string_of_list_ascii
    (rev (lstrip (rev (lstrip (String.list_ascii_of_string s))))).

Definition upper_char (c : Ascii.ascii) : Ascii.ascii :=
  let n := Ascii.nat_of_ascii c in
  if ((97 <=? n)%nat && (n <=? 122)%nat) then Ascii.ascii_of_nat (n - 32) else c.

(** [s.upper()] on ASCII text. *)
Definition upper (s : string) : string :=
  String.string_of_list_ascii (map upper_char (String.list_ascii_of_string s)).

(** [sym.strip().upper()] *)
Definition strip_upper (sym : string) : string := upper (strip sym).

End Text.

(** The characters [" "], ["/"] and ["."] (codes 32, 47 and 46). *)
Definition is_separator (c : Ascii.ascii) : bool :=
  let n := Ascii.nat_of_ascii c in
  (n =? 32)%nat || (n =? 47)%nat || (n =? 46)%nat.

(** [" " in su or "/" in su or "." in su] *)
Definition has_separator (su : string) : bool :=
  existsb is_separator (String.list_ascii_of_string su).

(** One turn of [for s in data], the entries being JSON objects.  [sym] is
    [s.get("symbol")] when that is a string and [None] otherwise; [normalise] stands for
    [sym.strip().upper()]. *)
Definition sanitise_step (normalise : string -> string)
    (extracted : list string) (sym : option string) : list string :=
  match sym with
  | None => extracted
  | Some EmptyString => extracted
  | Some sym =>
      let su := normalise sym in
      if has_separator su then extracted else extracted ++ [su]
  end.

(** The list [extracted] after the loop. *)
Definition sanitise (normalise : string -> string)
    (data : list (option string)) : list string :=
  foldl (sanitise_step normalise) [] data.

(** The symbol a listed entry contributes, if any. *)
Definition kept_symbol (normalise : string -> string) (sym : option string)
  : option string :=
  match sym with
  | None => None
  | Some EmptyString => None
  | Some sym =>
      if has_separator (normalise sym) then None else Some (normalise sym)
  end.

(** A world whose symbol list is the sanitised answer of the provider. *)
Definition with_symbols (w : World) (normalise : string -> string)
    (answer : outcome (list (option string))) : World :=
  {| yf_history := yf_history w; sentiment_http := sentiment_http w;
     news_http := news_http w; discord_http := discord_http w;
     symbols_http := match answer with
                     | Raise e => Raise e
                     | Return data => Return (sanitise normalise data)
                     end;
     clock := clock w; clock_end := clock_end w;
     write_result := write_result w |}.

(** ** More vocabulary *)

(** The position of a trigger in the order the source appends them. *)
Definition kind (t : trigger) : nat :=
  match t with
  | Gap _ => 0
  | UnusualVol _ _ => 1
  | Breakout _ => 2
  | PositiveSentiment _ => 3
  end.

(** What an evaluation reads before it looks at the alert history. *)
Record Reading : Type := {
  rd_price : float;
  rd_prev_close : float;
  rd_open : float;
  rd_vol : Z;
  rd_avg_vol : Z;
  rd_high20 : option float;
  rd_sentiment : option float
}.

(** The reading of a ticker; [None] when [analyze_ticker] gives up before
    the alert history matters (the fetch or the volume raises, fewer than
    three rows, a previous close that is not positive). *)
Definition reading (w : World) (ticker : string) : option Reading :=
  match yf_history w ticker with
  | Raise _ => None
  | Return hist =>
      if (length hist <? 3)%nat then None else
      match last hist, last (removelast hist) with
      | Some today, Some yesterday =>
          match Volume today with
          | None => None
          | Some v =>
              if PrimFloat.leb (Py.float_or (Close yesterday) 0) 0 then None
              else
                match average_volume (Pd.dropna (map Volume hist)) with
                | Raise _ => None
                | Return avg =>
                    Some {| rd_price := Py.float_or (Close today) 0;
                            rd_prev_close := Py.float_or (Close yesterday) 0;
                            rd_open := Py.float_or (Open today)
                                         (Py.float_or (Close today) 0);
                            rd_vol := v; rd_avg_vol := avg;
                            rd_high20 := recent_high hist;
                            rd_sentiment := fetch_news_sentiment w ticker |}
                end
          end
      | _, _ => None
      end
  end.

Definition reading_triggers (r : Reading) : list trigger :=
  build_triggers (rd_open r) (rd_prev_close r) (rd_price r) (rd_vol r)
    (rd_avg_vol r) (rd_high20 r) (rd_sentiment r).

Definition reading_change (r : Reading) : float :=
  pct_over (rd_price r) (rd_prev_close r).

(** How many of the four trigger conditions hold for a reading. *)
Definition conditions_met (r : Reading) : nat :=
  Nat.b2n (PrimFloat.leb GAP_THRESHOLD
             (pct_over (rd_open r) (rd_prev_close r)))
  + Nat.b2n (is_unusual_vol (rd_vol r) (rd_avg_vol r))
  + Nat.b2n (is_breakout (rd_high20 r) (rd_price r))
  + Nat.b2n (positive_news (rd_sentiment r)).

(** What an evaluation makes of a reading, given the alert history. *)
Definition verdict (ticker : string) (a : Alerts) (r : Reading)
  : option Result :=
  let fresh := fresh_thresholds (reading_change r)
                 (list_to_set (recorded_thresholds a ticker)) in
  let hit := (2 <=? length (reading_triggers r))%nat
             && negb (recorded_prebreak a ticker) in
  if negb (bool_decide (fresh = [])) || hit
  then Some {| r_ticker := ticker; price := rd_price r;
               change_pct := reading_change r; vol := rd_vol r;
               avg_vol := rd_avg_vol r; triggers := reading_triggers r;
               new_thresholds := fresh;
               pos_news := positive_news (rd_sentiment r);
               sentiment := rd_sentiment r; prebreak_hit := hit |}
  else None.

(** The same world with a sentiment provider that fails. *)
Definition without_sentiment (w : World) : World :=
  {| yf_history := yf_history w;
     sentiment_http := fun _ => Raise ProviderError;
     news_http := news_http w; discord_http := discord_http w;
     symbols_http := symbols_http w; clock := clock w;
     clock_end := clock_end w; write_result := write_result w |}.

(** A reading without its sentiment score. *)
Definition drop_sentiment (r : Reading) : Reading :=
  {| rd_price := rd_price r; rd_prev_close := rd_prev_close r;
     rd_open := rd_open r; rd_vol := rd_vol r; rd_avg_vol := rd_avg_vol r;
     rd_high20 := rd_high20 r; rd_sentiment := None |}.

Definition is_sentiment (t : trigger) : bool :=
  match t with
  | PositiveSentiment _ => true
  | _ => false
  end.

(** The ticker a message or a log entry is about, and its label. *)
Definition subject_ticker (s : Subject) : string :=
  match s with
  | ThresholdSubject t _ _ => t
  | PrebreakSubject t _ _ => t
  end.

Definition subject_label (s : Subject) : AlertLabel :=
  match s with
  | ThresholdSubject _ _ th => ThresholdLabel th
  | PrebreakSubject _ _ _ => PrebreakLabel
  end.

(** The log entry that goes with a message. *)
Definition post_entry (p : Post) : string * AlertLabel :=
  (subject_ticker (p_subject p), subject_label (p_subject p)).

(** The state [main] starts its scan from. *)
Definition initial_state (state : State) : RunState :=
  {| rs_alerts := alerts_of state; rs_hot := hot_list_of state;
     rs_alerted := []; rs_posts := [] |}.


(** ** More sample inputs *)

Module Sample2.

(** A row that closes at zero. *)
Definition zero_bar : Bar :=
  {| Open := 1; High := 1; Low := 0; Close := 0; Volume := Some 5 |}.

(** Three rows whose previous close is zero. *)
Definition zero_hist : list Bar :=
  [Sample.prior_bar; zero_bar; Sample.today_bar].

(** As [Sample.hist], with a close that is NaN today. *)
Definition nan_hist : list Bar :=
  replicate 25 Sample.prior_bar
  ++ [ {| Open := 104; High := 107; Low := 103; Close := nan;
          Volume := Some 5000000 |} ].

(** A world like [Sample.world] whose news provider answers with five
    items, the first with a headline of 300 characters. *)
Definition news_world (h : list Bar) : World :=
  {| yf_history := fun _ => Return h;
     sentiment_http := fun _ => Raise ProviderError;
     news_http := fun _ =>
       Return (200, Some (replicate 5
                 {| headline := String.string_of_list_ascii
                                  (replicate 300 (Ascii.ascii_of_nat 65));
                    source := "wire" |}));
     discord_http := fun _ _ => Return 204;
     symbols_http := Return ["AAA"; "BBB"];
     clock := 1700000000.5; clock_end := 1700000060.25;
     write_result := WriteOk |}.

End Sample2.

(** * Properties *)

(** ** Batch scheduler *)

Section Chunks.
Context {A : Type}.
Implicit Types (l : list A) (B : nat).



Lemma chunks_nonempty l B : l ≠ [] → chunks B l ≠ [].
Proof.
  destruct l as [|x l]; [congruence|]. intros _.
  unfold chunks, Py.range. simpl. discriminate.
Qed.


(** The batch a slot selects is the chunk at [slot mod chunkCount]. *)
Lemma batch_for_slot_lookup B l (s : Z) :
  l ≠ [] →
  ∃ b, chunks B l !! Z.to_nat (s mod Z.of_nat (length (chunks B l))) = Some b
       ∧ batch_for_slot B l s
         = Return (b, s mod Z.of_nat (length (chunks B l)),
                   Z.of_nat (length (chunks B l))).
Proof.
  intros Hl. pose proof (chunks_nonempty l B Hl) as Hne.
  unfold batch_for_slot.
  destruct (chunks B l) as [|c cs] eqn:Hcs; [congruence|].
  set (k := Z.of_nat (length (c :: cs))).
  assert (0 < k) by (subst k; simpl; lia).
  pose proof (Z.mod_pos_bound s k ltac:(lia)) as Hbound.
  destruct (lookup_lt_is_Some_2 (c :: cs) (Z.to_nat (s mod k))) as [b Hb].
  { subst k. lia. }
  exists b. split; [exact Hb|]. rewrite Hb. reflexivity.
Qed.

Lemma batches_for_at_slot B l t (s : Z) :
  l ≠ [] → slot_of_time t = Return s →
  batches_for B t l = batch_for_slot B l s.
Proof.
  intros Hl Hs. unfold batches_for.
  destruct l; [congruence|]. rewrite Hs. reflexivity.
Qed.


End Chunks.



Example slot_sample :
  slot_of_time 1700000000.5%float = Return 5666666.
Proof. vm_compute. reflexivity. Qed.

Example chunks_sample :
  chunks 2 ["A"; "B"; "C"; "D"; "E"] = [["A"; "B"]; ["C"; "D"]; ["E"]].
Proof. reflexivity. Qed.

Example batches_rotate_sample :
  batches_for 2 299.5%float ["A"; "B"; "C"; "D"; "E"] = Return (["A"; "B"], 0, 3)
  ∧ batches_for 2 300%float ["A"; "B"; "C"; "D"; "E"] = Return (["C"; "D"], 1, 3)
  ∧ batches_for 2 899.5%float ["A"; "B"; "C"; "D"; "E"] = Return (["E"], 2, 3)
  ∧ batches_for 2 900%float ["A"; "B"; "C"; "D"; "E"] = Return (["A"; "B"], 0, 3).
Proof. vm_compute. repeat split. Qed.

(** ** Signal evaluator *)

Lemma elem_of_fresh_thresholds (c : float) (prev : gset Z) (th : Z) :
  th ∈ fresh_thresholds c prev ↔
  th ∈ THRESHOLDS ∧ PrimFloat.leb (Py.float_of_Z th) c = true ∧ th ∉ prev.
Proof.
  unfold fresh_thresholds.
  rewrite !list_elem_of_In, filter_In, andb_true_iff, negb_true_iff,
    bool_decide_eq_false.
  tauto.
Qed.


(** What a result of [analyze_ticker] is made of. *)
Lemma analyze_ticker_Some (w : World) (ticker : string) (a : Alerts)
    (res : Result) :
  analyze_ticker w ticker a = Some res →
  ∃ hist yesterday today vol_today avg,
    yf_history w ticker = Return hist
    ∧ (3 ≤ length hist)%nat
    ∧ last hist = Some today
    ∧ last (removelast hist) = Some yesterday
    ∧ Volume today = Some vol_today
    ∧ average_volume (Pd.dropna (map Volume hist)) = Return avg
    ∧ res =
      (let p := Py.float_or (Close today) 0 in
      let prev_close := Py.float_or (Close yesterday) 0 in
      let open_price := Py.float_or (Open today) p in
      let trs := build_triggers open_price prev_close p vol_today avg
                   (recent_high hist) (fetch_news_sentiment w ticker) in
      {| r_ticker := ticker; price := p;
         change_pct := pct_over p prev_close;
         vol := vol_today; avg_vol := avg; triggers := trs;
         new_thresholds :=
           fresh_thresholds (pct_over p prev_close)
             (list_to_set (recorded_thresholds a ticker));
         pos_news := positive_news (fetch_news_sentiment w ticker);
         sentiment := fetch_news_sentiment w ticker;
         prebreak_hit :=
           (2 <=? length trs)%nat && negb (recorded_prebreak a ticker) |})
    ∧ (new_thresholds res ≠ [] ∨ prebreak_hit res = true).
Proof.
  unfold analyze_ticker, analyze_body. intros H.
  destruct (yf_history w ticker) as [e|hist] eqn:Hh; simpl in H; [discriminate|].
  destruct (Nat.ltb_spec (length hist) 3) as [|Hlen]; [discriminate|].
  destruct (last hist) as [today|] eqn:Ht; [|discriminate].
  destruct (last (removelast hist)) as [yesterday|] eqn:Hy; [|discriminate].
  unfold analyze_rows in H.
  destruct (Volume today) as [v|] eqn:Hv; simpl in H; [|discriminate].
  destruct (PrimFloat.leb (Py.float_or (Close yesterday) 0) 0); [discriminate|].
  destruct (average_volume _) as [e|avg] eqn:Ha; simpl in H; [discriminate|].
  match type of H with
  | context [if ?c then _ else _] => destruct c eqn:Hc; [|discriminate]
  end.
  injection H as <-.
  exists hist, yesterday, today, v, avg. simpl.
  repeat (split; [done|]).
  apply orb_true_iff in Hc as [Hc|Hc]; [left|right; exact Hc].
  apply negb_true_iff, bool_decide_eq_false in Hc. exact Hc.
Qed.

(** The breakout trigger of a result is the test on the fetched history
    and the result's price. *)
Lemma analyze_ticker_breakout w ticker a res hist :
  yf_history w ticker = Return hist →
  analyze_ticker w ticker a = Some res →
  has_breakout (triggers res) = is_breakout (recent_high hist) (price res).
Proof.
  intros Hhist H. apply analyze_ticker_Some in H
    as (hist' & y & t & v & avg & Hh & _ & _ & _ & _ & _ & -> & _).
  rewrite Hhist in Hh. injection Hh as <-. simpl.
  unfold has_breakout, build_triggers. rewrite !existsb_app.
  destruct (PrimFloat.leb GAP_THRESHOLD _), (is_unusual_vol _ _); simpl;
    (destruct (recent_high hist) as [h|]; simpl;
     [destruct (PrimFloat.ltb h _); simpl|]);
    (destruct (fetch_news_sentiment w ticker) as [s|]; simpl;
     [destruct (PrimFloat.leb SENTIMENT_POSITIVE s)|]); reflexivity.
Qed.

Lemma analyze_ticker_new_thresholds w ticker a res :
  analyze_ticker w ticker a = Some res →
  new_thresholds res
  = fresh_thresholds (change_pct res) (list_to_set (recorded_thresholds a ticker)).
Proof.
  intros H. apply analyze_ticker_Some in H
    as (hist & y & t & v & avg & _ & _ & _ & _ & _ & _ & -> & _).
  reflexivity.
Qed.

Lemma analyze_ticker_prebreak_hit w ticker a res :
  analyze_ticker w ticker a = Some res →
  prebreak_hit res
  = (2 <=? length (triggers res))%nat && negb (recorded_prebreak a ticker).
Proof.
  intros H. apply analyze_ticker_Some in H
    as (hist & y & t & v & avg & _ & _ & _ & _ & _ & _ & -> & _).
  reflexivity.
Qed.

(** Whether the evaluation raises does not depend on the alert history. *)
Lemma analyze_body_raise_any_alerts w ticker a a' e :
  analyze_body w ticker a = Raise e → analyze_body w ticker a' = Raise e.
Proof.
  unfold analyze_body.
  destruct (yf_history w ticker) as [e'|hist]; simpl; [done|].
  destruct (length hist <? 3)%nat; [done|].
  destruct (last hist) as [today|]; [|done].
  destruct (last (removelast hist)) as [yesterday|]; [|done].
  unfold analyze_rows.
  destruct (Volume today) as [v|]; simpl; [|done].
  destruct (PrimFloat.leb _ 0); [done|].
  destruct (average_volume _) as [e'|avg]; simpl; [done|].
  repeat match goal with
         | |- context [if ?c then _ else _] => destruct c
         end; done.
Qed.

(** ** Breakout trigger *)



(** *** The order of floats, for the maximum *)


Lemma SFltb_not_nan (a b : spec_float) :
  SFltb a b = true → a ≠ S754_nan ∧ b ≠ S754_nan.
Proof.
  unfold SFltb. destruct a, b; simpl; try discriminate; by split.
Qed.

Lemma is_nan_false (x : float) :
  Pd.is_nan x = false ↔ Prim2SF x ≠ S754_nan.
Proof.
  unfold Pd.is_nan. rewrite negb_false_iff, FloatAxioms.eqb_spec.
  unfold SFeqb.
  destruct (Prim2SF x) as [[]|[]| |[] m e]; simpl;
    try (split; congruence).
  all: rewrite Z.compare_refl;
    change (PosDef.Pos.compare_cont Eq m m) with (Pos.compare m m);
    rewrite Pos.compare_refl; simpl; split; congruence.
Qed.

Lemma float_ltb_not_nan (x y : float) :
  PrimFloat.ltb x y = true → Pd.is_nan x = false ∧ Pd.is_nan y = false.
Proof.
  rewrite FloatAxioms.ltb_spec, !is_nan_false. apply SFltb_not_nan.
Qed.








Lemma has_breakout_build_triggers open_price prev_close price vol_today
    avg_vol high20 sentiment :
  has_breakout (build_triggers open_price prev_close price vol_today avg_vol
                  high20 sentiment)
  = is_breakout high20 price.
Proof.
  unfold build_triggers, has_breakout. rewrite !existsb_app.
  destruct (PrimFloat.leb GAP_THRESHOLD _), (is_unusual_vol _ _); simpl;
    (destruct high20 as [h|]; simpl;
     [destruct (PrimFloat.ltb h price); simpl|]);
    (destruct sentiment as [s|]; simpl;
     [destruct (PrimFloat.leb SENTIMENT_POSITIVE s)|]); reflexivity.
Qed.



Example breakout_sample :
  Pd.max (map High (prior_bars BREAKOUT_LOOKBACK Sample.hist)) = 105%float
  ∧ is_breakout (recent_high Sample.hist) 106 = true
  ∧ is_breakout (recent_high Sample.hist) 105 = false
  ∧ recent_high (drop 6 Sample.hist) = None.
Proof. vm_compute. repeat split. Qed.

(** ** The worked example *)

(** C7.  Previous close 100, open 104, close 106, volume 5,000,000 against
    a mean of 1,000,000, 25 earlier rows whose largest high is 105, and no
    record for the ticker: the triggers are the gap (4 percent), the unusual
    volume and the breakout above 105, three in all; the pre-breakout fires;
    the change is 6 percent and level 5 alone is new. *)
Theorem example_scenario :
  length Sample.hist = 26%nat
  ∧ Pd.max (map High (removelast Sample.hist)) = 105%float
  ∧ ∃ res,
      analyze_ticker (Sample.world Sample.hist 204) "AAA" (∅ : Alerts) = Some res
      ∧ price res = 106%float
      ∧ vol res = 5000000
      ∧ avg_vol res = 1000000
      ∧ triggers res = [Gap 4; UnusualVol 5000000 1000000; Breakout 105]
      ∧ length (triggers res) = 3%nat
      ∧ prebreak_hit res = true
      ∧ change_pct res = 6%float
      ∧ new_thresholds res = [5].
Proof.
  split; [reflexivity|]. split; [vm_compute; reflexivity|].
  eexists. split; [vm_compute; reflexivity|].
  simpl. repeat split.
Qed.

(** ** Average volume *)






(** ** Run orchestrator: what one ticker changes *)

Lemma elem_of_sorted_levels (levels : gset Z) (th : Z) :
  th ∈ sorted_levels levels ↔ th ∈ levels.
Proof.
  unfold sorted_levels. rewrite merge_sort_Permutation. apply elem_of_elements.
Qed.

Lemma foldl_notify_threshold w ticker res ths s al ps :
  foldl (notify_threshold w ticker res) (s, al, ps) ths
  = (list_to_set ths ∪ s,
     al ++ map (fun th => (ticker, ThresholdLabel th)) ths,
     ps ++ map (threshold_post w ticker res) ths).
Proof.
  revert s al ps. induction ths as [|th ths IH]; intros s al ps; simpl.
  - rewrite !app_nil_r. f_equal. f_equal. set_solver.
  - rewrite IH, <- !app_assoc. simpl. f_equal. f_equal. set_solver.
Qed.

Lemma handle_thresholds_eq w ticker res st :
  handle_thresholds w ticker res st
  = {| rs_alerts :=
         <[ticker :=
             {| thresholds :=
                  Some (sorted_levels
                          (list_to_set (new_thresholds res)
                           ∪ list_to_set (recorded_thresholds (rs_alerts st) ticker)));
                prebreak := prebreak (default empty_rec (rs_alerts st !! ticker)) |}]>
           (rs_alerts st);
       rs_hot := {[ticker]} ∪ rs_hot st;
       rs_alerted := rs_alerted st ++ threshold_labels ticker res;
       rs_posts := rs_posts st
                   ++ map (threshold_post w ticker res) (new_thresholds res) |}.
Proof.
  unfold handle_thresholds. rewrite foldl_notify_threshold. reflexivity.
Qed.

Lemma handle_prebreak_eq w ticker res st :
  recorded_prebreak (rs_alerts st) ticker = false →
  handle_prebreak w ticker res st
  = {| rs_alerts :=
         <[ticker :=
             {| thresholds := thresholds (default empty_rec (rs_alerts st !! ticker));
                prebreak := Some true |}]> (rs_alerts st);
       rs_hot := {[ticker]} ∪ rs_hot st;
       rs_alerted := rs_alerted st ++ [(ticker, PrebreakLabel)];
       rs_posts := rs_posts st ++ [prebreak_post w ticker res] |}.
Proof.
  unfold recorded_prebreak, handle_prebreak. intros ->. reflexivity.
Qed.

Lemma recorded_thresholds_insert (a : Alerts) ticker rec t' :
  recorded_thresholds (<[ticker := rec]> a) t'
  = if decide (ticker = t') then default [] (thresholds rec)
    else recorded_thresholds a t'.
Proof.
  unfold recorded_thresholds. rewrite lookup_insert.
  destruct (decide (ticker = t')); reflexivity.
Qed.

Lemma recorded_prebreak_insert (a : Alerts) ticker rec t' :
  recorded_prebreak (<[ticker := rec]> a) t'
  = if decide (ticker = t') then default false (prebreak rec)
    else recorded_prebreak a t'.
Proof.
  unfold recorded_prebreak. rewrite lookup_insert.
  destruct (decide (ticker = t')); reflexivity.
Qed.

Lemma process_ticker_None w st ticker :
  analyze_ticker w ticker (rs_alerts st) = None →
  process_ticker w st ticker = st.
Proof. unfold process_ticker. intros ->. reflexivity. Qed.

Lemma process_ticker_Some w st ticker res :
  analyze_ticker w ticker (rs_alerts st) = Some res →
  let st' := process_ticker w st ticker in
  rs_posts st' = rs_posts st ++ added_posts w ticker (Some res)
  ∧ rs_alerted st' = rs_alerted st ++ added_labels ticker (Some res)
  ∧ rs_hot st' = {[ticker]} ∪ rs_hot st
  ∧ (∀ t', t' ≠ ticker → rs_alerts st' !! t' = rs_alerts st !! t')
  ∧ (∀ th, th ∈ recorded_thresholds (rs_alerts st') ticker
           ↔ th ∈ new_thresholds res
             ∨ th ∈ recorded_thresholds (rs_alerts st) ticker)
  ∧ recorded_prebreak (rs_alerts st') ticker
    = prebreak_hit res || recorded_prebreak (rs_alerts st) ticker.
Proof.
  intros Hres.
  pose proof (analyze_ticker_prebreak_hit _ _ _ _ Hres) as Hhit.
  destruct (analyze_ticker_Some _ _ _ _ Hres)
    as (_ & _ & _ & _ & _ & _ & _ & _ & _ & _ & _ & _ & Hsignal).
  unfold process_ticker. rewrite Hres. simpl.
  destruct (new_thresholds res) as [|th ths] eqn:Hnew.
  - (* no new level: the pre-breakout fired *)
    destruct Hsignal as [|Hp]; [congruence|]. rewrite Hp in *.
    symmetry in Hhit. apply andb_true_iff in Hhit as [_ Hlatch].
    apply negb_true_iff in Hlatch.
    rewrite handle_prebreak_eq by exact Hlatch. simpl.
    unfold threshold_labels. rewrite Hnew. simpl.
    repeat split.
    + intros t' Hne. rewrite lookup_insert_ne by congruence. reflexivity.
    + rewrite recorded_thresholds_insert, decide_True by reflexivity.
      simpl. unfold recorded_thresholds. set_solver.
    + rewrite recorded_thresholds_insert, decide_True by reflexivity.
      simpl. unfold recorded_thresholds. set_solver.
    + rewrite recorded_prebreak_insert, decide_True by reflexivity.
      reflexivity.
  - rewrite <- Hnew. rewrite handle_thresholds_eq.
    set (st1 := {| rs_alerts := _ |}).
    assert (Hlatch1 : recorded_prebreak (rs_alerts st1) ticker
                      = recorded_prebreak (rs_alerts st) ticker).
    { subst st1. simpl. rewrite recorded_prebreak_insert,
        decide_True by reflexivity. reflexivity. }
    assert (Hlevels1 : ∀ x, x ∈ recorded_thresholds (rs_alerts st1) ticker
                            ↔ x ∈ new_thresholds res
                              ∨ x ∈ recorded_thresholds (rs_alerts st) ticker).
    { intros x. subst st1. simpl.
      rewrite recorded_thresholds_insert, decide_True by reflexivity.
      simpl. rewrite elem_of_sorted_levels. set_solver. }
    destruct (prebreak_hit res) eqn:Hp.
    + symmetry in Hhit. apply andb_true_iff in Hhit as [_ Hlatch].
      apply negb_true_iff in Hlatch.
      rewrite handle_prebreak_eq by (rewrite Hlatch1; exact Hlatch).
      simpl. rewrite <- !app_assoc.
      repeat split.
      * set_solver.
      * intros t' Hne. rewrite !lookup_insert_ne by congruence. reflexivity.
      * rewrite recorded_thresholds_insert, decide_True by reflexivity.
        simpl. intros Hx. apply Hlevels1. exact Hx.
      * rewrite recorded_thresholds_insert, decide_True by reflexivity.
        simpl. intros Hx. apply Hlevels1 in Hx. exact Hx.
      * rewrite recorded_prebreak_insert, decide_True by reflexivity.
        reflexivity.
    + simpl. rewrite !app_nil_r.
      repeat split.
      * intros t' Hne. rewrite lookup_insert_ne by congruence. reflexivity.
      * apply Hlevels1.
      * apply Hlevels1.
      * exact Hlatch1.
Qed.

(** Where the last line of the pre-breakout block sits makes no difference:
    the block is entered only with the latch unset. *)
Lemma process_ticker_inner_eq w st ticker :
  process_ticker_inner w st ticker = process_ticker w st ticker.
Proof.
  unfold process_ticker_inner, process_ticker.
  destruct (analyze_ticker w ticker (rs_alerts st)) as [res|] eqn:Hres;
    [|reflexivity].
  destruct (prebreak_hit res) eqn:Hhit; [|reflexivity].
  rewrite (analyze_ticker_prebreak_hit _ _ _ _ Hres) in Hhit.
  apply andb_true_iff in Hhit as [_ Hlatch]. apply negb_true_iff in Hlatch.
  assert (Hgen : ∀ s, recorded_prebreak (rs_alerts s) ticker = false →
                      handle_prebreak_inner w ticker res s
                      = handle_prebreak w ticker res s).
  { intros s Hs. unfold handle_prebreak_inner, handle_prebreak.
    unfold recorded_prebreak in Hs. rewrite Hs. reflexivity. }
  apply Hgen.
  destruct (new_thresholds res); [exact Hlatch|].
  rewrite handle_thresholds_eq. simpl.
  rewrite recorded_prebreak_insert, decide_True by reflexivity.
  exact Hlatch.
Qed.

Lemma process_ticker_posts w st ticker :
  rs_posts (process_ticker w st ticker)
  = rs_posts st ++ added_posts w ticker (analyze_ticker w ticker (rs_alerts st)).
Proof.
  destruct (analyze_ticker w ticker (rs_alerts st)) as [res|] eqn:Hres.
  - apply (process_ticker_Some w st ticker res Hres).
  - rewrite process_ticker_None by exact Hres. simpl. rewrite app_nil_r.
    reflexivity.
Qed.

Lemma process_ticker_alerted w st ticker :
  rs_alerted (process_ticker w st ticker)
  = rs_alerted st ++ added_labels ticker (analyze_ticker w ticker (rs_alerts st)).
Proof.
  destruct (analyze_ticker w ticker (rs_alerts st)) as [res|] eqn:Hres.
  - apply (process_ticker_Some w st ticker res Hres).
  - rewrite process_ticker_None by exact Hres. simpl. rewrite app_nil_r.
    reflexivity.
Qed.

(** Recorded levels and latches only grow, for every ticker. *)
Lemma process_ticker_keeps_levels w st ticker x level :
  level ∈ recorded_thresholds (rs_alerts st) x →
  level ∈ recorded_thresholds (rs_alerts (process_ticker w st ticker)) x.
Proof.
  intros Hin.
  destruct (analyze_ticker w ticker (rs_alerts st)) as [res|] eqn:Hres.
  - destruct (process_ticker_Some w st ticker res Hres)
      as (_ & _ & _ & Hother & Hlevels & _).
    destruct (decide (x = ticker)) as [->|Hne].
    + apply Hlevels. right. exact Hin.
    + unfold recorded_thresholds in *. rewrite Hother by exact Hne. exact Hin.
  - rewrite process_ticker_None by exact Hres. exact Hin.
Qed.

Lemma process_ticker_keeps_latch w st ticker x :
  recorded_prebreak (rs_alerts st) x = true →
  recorded_prebreak (rs_alerts (process_ticker w st ticker)) x = true.
Proof.
  intros Hset.
  destruct (analyze_ticker w ticker (rs_alerts st)) as [res|] eqn:Hres.
  - destruct (process_ticker_Some w st ticker res Hres)
      as (_ & _ & _ & Hother & _ & Hlatch).
    destruct (decide (x = ticker)) as [->|Hne].
    + rewrite Hlatch, Hset. apply orb_true_r.
    + unfold recorded_prebreak in *. rewrite Hother by exact Hne. exact Hset.
  - rewrite process_ticker_None by exact Hres. exact Hset.
Qed.

Lemma process_ticker_keeps_hot w st ticker x :
  x ∈ rs_hot st → x ∈ rs_hot (process_ticker w st ticker).
Proof.
  intros Hin.
  destruct (analyze_ticker w ticker (rs_alerts st)) as [res|] eqn:Hres.
  - destruct (process_ticker_Some w st ticker res Hres) as (_ & _ & -> & _).
    set_solver.
  - rewrite process_ticker_None by exact Hres. exact Hin.
Qed.

(** A recorded level of [x] is in no result for [x]. *)
Lemma recorded_level_not_new w x a level res :
  level ∈ recorded_thresholds a x →
  analyze_ticker w x a = Some res →
  level ∉ new_thresholds res.
Proof.
  intros Hrec Hres Hin.
  rewrite (analyze_ticker_new_thresholds _ _ _ _ Hres) in Hin.
  apply elem_of_fresh_thresholds in Hin as (_ & _ & Hfresh).
  apply Hfresh, elem_of_list_to_set, Hrec.
Qed.


Lemma added_posts_skip_recorded_level w st ticker x level :
  level ∈ recorded_thresholds (rs_alerts st) x →
  Forall (fun p => ¬ threshold_post_for x level p)
         (added_posts w ticker (analyze_ticker w ticker (rs_alerts st))).
Proof.
  intros Hrec.
  destruct (analyze_ticker w ticker (rs_alerts st)) as [res|] eqn:Hres;
    simpl; [|constructor].
  apply Forall_app. split.
  - apply Forall_forall. intros p Hp [c Hc].
    apply list_elem_of_In, in_map_iff in Hp as (th & <- & Hth).
    simpl in Hc. injection Hc as Htk _ Hlv. subst.
    eapply recorded_level_not_new;
      [exact Hrec | exact Hres | apply list_elem_of_In, Hth].
  - destruct (prebreak_hit res); repeat constructor.
    intros [c Hc]. discriminate Hc.
Qed.



(** ** Run orchestrator: a whole scan *)

Lemma scan_cons w ticker l st :
  scan w (ticker :: l) st = scan w l (process_ticker w st ticker).
Proof. reflexivity. Qed.

Lemma scan_app w l1 l2 st :
  scan w (l1 ++ l2) st = scan w l2 (scan w l1 st).
Proof. unfold scan. apply foldl_app. Qed.

(** An invariant of the states that every ticker preserves holds after the
    scan, and the messages and labels added all satisfy what each ticker's
    additions satisfy under the invariant. *)
Lemma scan_invariant w (I : RunState → Prop) (P : Post → Prop)
    (Q : string * AlertLabel → Prop) :
  (∀ st t, I st → I (process_ticker w st t)) →
  (∀ st t, I st →
     Forall P (added_posts w t (analyze_ticker w t (rs_alerts st)))) →
  (∀ st t, I st →
     Forall Q (added_labels t (analyze_ticker w t (rs_alerts st)))) →
  ∀ l st, I st →
    I (scan w l st)
    ∧ Forall P (posted_since st (scan w l st))
    ∧ Forall Q (alerted_since st (scan w l st)).
Proof.
  intros Hstep Hposts Hlabels l.
  assert (Hgen : ∀ st, I st →
    I (scan w l st)
    ∧ (∃ ps, rs_posts (scan w l st) = rs_posts st ++ ps ∧ Forall P ps)
    ∧ (∃ ls, rs_alerted (scan w l st) = rs_alerted st ++ ls ∧ Forall Q ls)).
  { induction l as [|t l IH]; intros st HI.
    - split; [exact HI|]. split; exists []; rewrite app_nil_r; by split.
    - rewrite scan_cons.
      destruct (IH (process_ticker w st t) (Hstep st t HI))
        as (HI' & (ps & Hps & HP) & (ls & Hls & HQ)).
      split; [exact HI'|]. split.
      + exists (added_posts w t (analyze_ticker w t (rs_alerts st)) ++ ps).
        split.
        * rewrite Hps, process_ticker_posts, app_assoc. reflexivity.
        * apply Forall_app. split; [apply Hposts, HI|exact HP].
      + exists (added_labels t (analyze_ticker w t (rs_alerts st)) ++ ls).
        split.
        * rewrite Hls, process_ticker_alerted, app_assoc. reflexivity.
        * apply Forall_app. split; [apply Hlabels, HI|exact HQ]. }
  intros st HI.
  destruct (Hgen st HI) as (HI' & (ps & Hps & HP) & (ls & Hls & HQ)).
  split; [exact HI'|]. unfold posted_since, alerted_since.
  rewrite Hps, Hls, !drop_app_length. by split.
Qed.

(** ** A whole run *)



(** ** Deduplication of alerts *)

(** C1.  A threshold level already recorded for a ticker never fires again:
    whatever the world (hence whatever the percent change), an evaluation
    of the ticker does not list the level as new, the level stays recorded
    through a scan, and the scan posts no message for it. *)
Theorem recorded_level_never_refires (w : World) (scan_set : list string)
    (st : RunState) (ticker : string) (level : Z) :
  level ∈ recorded_thresholds (rs_alerts st) ticker →
  (∀ res, analyze_ticker w ticker (rs_alerts st) = Some res →
          level ∉ new_thresholds res)
  ∧ level ∈ recorded_thresholds (rs_alerts (scan w scan_set st)) ticker
  ∧ Forall (fun p => ¬ threshold_post_for ticker level p)
           (posted_since st (scan w scan_set st)).
Proof.
  intros Hrec. split.
  - intros res Hres. exact (recorded_level_not_new _ _ _ _ _ Hrec Hres).
  - destruct (scan_invariant w
                (fun s => level ∈ recorded_thresholds (rs_alerts s) ticker)
                (fun p => ¬ threshold_post_for ticker level p)
                (fun _ => True)) with (l := scan_set) (st := st)
      as (Hkept & Hposts & _).
    + intros s t Hs. apply process_ticker_keeps_levels, Hs.
    + intros s t Hs. apply added_posts_skip_recorded_level, Hs.
    + intros s t _. apply Forall_true. done.
    + exact Hrec.
    + split; [exact Hkept | exact Hposts].
Qed.

Lemma recorded_level_never_refires_witness :
  (∀ res, analyze_ticker (Sample.world Sample.hist 204) "AAA"
            (rs_alerts Sample.seen) = Some res →
          5 ∉ new_thresholds res)
  ∧ 5 ∈ recorded_thresholds
          (rs_alerts (scan (Sample.world Sample.hist 204) ["AAA"; "BBB"]
                           Sample.seen)) "AAA"
  ∧ Forall (fun p => ¬ threshold_post_for "AAA" 5 p)
           (posted_since Sample.seen
              (scan (Sample.world Sample.hist 204) ["AAA"; "BBB"] Sample.seen)).
Proof.
  apply (recorded_level_never_refires (Sample.world Sample.hist 204)
           ["AAA"; "BBB"] Sample.seen "AAA" 5).
  vm_compute. left.
Defined.



(** With the latch set and three triggers true, the sample ticker reports
    its new level only, while a ticker without a record fires. *)
Example latched_sample :
  ((fun r => (length (triggers r), new_thresholds r, prebreak_hit r))
     <$> analyze_ticker (Sample.world Sample.hist 204) "AAA"
           (rs_alerts Sample.latched)) = Some (3%nat, [5], false)
  ∧ (prebreak_hit <$> analyze_ticker (Sample.world Sample.hist 204) "BBB"
                        (rs_alerts Sample.latched)) = Some true.
Proof. vm_compute. split; reflexivity. Qed.

(** ** Notifications *)




(** ** Delivery failures *)






(** Every post of the sample run fails, and yet the record is written. *)
Example undelivered_sample :
  let w := with_discord (Sample.world Sample.hist 204)
             (fun _ _ => Raise ProviderError) in
  map p_delivered (rs_posts (process_ticker w Sample.fresh "AAA"))
  = [false; false]
  ∧ rs_alerts (process_ticker w Sample.fresh "AAA") !! "AAA"
    = Some {| thresholds := Some [5]; prebreak := Some true |}.
Proof. vm_compute. split; reflexivity. Qed.

(** ** Failures of one ticker *)

(** C9.  When fetching or computing the signals of a ticker raises, the
    ticker yields no signal, processing it leaves the run state as it was,
    and the scan of the other tickers is the scan without it. *)
Theorem failing_ticker_is_skipped (w : World) (ticker : string) (e : exn)
    (a : Alerts) (st : RunState) (before after : list string) :
  analyze_body w ticker a = Raise e →
  analyze_ticker w ticker (rs_alerts st) = None
  ∧ process_ticker w st ticker = st
  ∧ scan w (before ++ ticker :: after) st = scan w (before ++ after) st.
Proof.
  intros Hraise.
  assert (Hnone : ∀ a', analyze_ticker w ticker a' = None).
  { intros a'. unfold analyze_ticker.
    rewrite (analyze_body_raise_any_alerts w ticker a a' e Hraise).
    reflexivity. }
  split; [apply Hnone|]. split.
  - apply process_ticker_None, Hnone.
  - rewrite !scan_app, scan_cons.
    rewrite process_ticker_None by apply Hnone. reflexivity.
Qed.

Lemma failing_ticker_is_skipped_witness :
  analyze_ticker (Sample.world Sample.hist 204) "BAD" (rs_alerts Sample.fresh)
  = None
  ∧ process_ticker (Sample.world Sample.hist 204) Sample.fresh "BAD"
    = Sample.fresh
  ∧ scan (Sample.world Sample.hist 204) (["AAA"] ++ "BAD" :: ["BBB"])
         Sample.fresh
    = scan (Sample.world Sample.hist 204) (["AAA"] ++ ["BBB"]) Sample.fresh.
Proof.
  apply (failing_ticker_is_skipped (Sample.world Sample.hist 204) "BAD"
           ProviderError ∅ Sample.fresh ["AAA"] ["BBB"]).
  vm_compute. reflexivity.
Defined.

(** A missing volume makes [int] raise while the signals are computed. *)
Example failing_computation_sample :
  analyze_body (Sample.world Sample.gap_hist 204) "AAA" ∅ = Raise ValueError
  ∧ analyze_ticker (Sample.world Sample.gap_hist 204) "AAA" ∅ = None.
Proof. vm_compute. split; reflexivity. Qed.

(** ** Persisted state *)



(** A run on a cold start ends with a stored document that holds the
    tickers, both timestamps, and a hot list with both sample tickers. *)
Example main_sample :
  ∃ doc st,
    main (Sample.world Sample.hist 204) Missing = (Stored doc, Completed (Some st))
    ∧ st_tickers doc = Some ["AAA"; "BBB"]
    ∧ st_tickers_fetched_at doc = Some 1700000000
    ∧ st_last_run doc = Some 1700000060
    ∧ hot_list_of doc = {["AAA"; "BBB"]}
    ∧ length (rs_posts st) = 4%nat.
Proof.
  eexists _, _. split; [vm_compute; reflexivity|].
  repeat split.
Qed.

(** A failed write leaves the old file, or an unreadable one that loads as
    the empty state. *)
Lemma failed_write (w : World) (state : State) (file : File) :
  (write_result w = OpenFails → save_state w state file = file)
  ∧ (write_result w = DumpFails →
     load_state (save_state w state file) = empty_state).
Proof. unfold save_state. split; intros ->; reflexivity. Qed.

(** * Further properties *)

(** ** The evaluation, split at the alert history *)

Lemma analyze_ticker_reading (w : World) (ticker : string) (a : Alerts) :
  analyze_ticker w ticker a = reading w ticker ≫= verdict ticker a.
Proof.
  unfold analyze_ticker, analyze_body, reading.
  destruct (yf_history w ticker) as [e|hist]; simpl; [reflexivity|].
  destruct (length hist <? 3)%nat; [reflexivity|].
  destruct (last hist) as [today|]; [|reflexivity].
  destruct (last (removelast hist)) as [yesterday|]; [|reflexivity].
  unfold analyze_rows.
  destruct (Volume today) as [v|]; simpl; [|reflexivity].
  destruct (PrimFloat.leb _ 0); [reflexivity|].
  destruct (average_volume _) as [e|avg]; simpl; [reflexivity|].
  unfold verdict, reading_triggers, reading_change. simpl.
  match goal with
  | |- context [if ?c then _ else _] => destruct c
  end; reflexivity.
Qed.

(** ** Batch scheduler: the batch as a slice, and the order of the batches *)

Lemma range_from_lookup (B fuel start stop i : nat) :
  (0 < B)%nat → (stop - start ≤ fuel)%nat →
  Py.range_from fuel start stop B !! i
  = if (start + i * B <? stop)%nat then Some (start + i * B)%nat else None.
Proof.
  intros HB. revert start i.
  induction fuel as [|fuel IH]; intros start i Hfuel; simpl.
  - destruct (Nat.ltb_spec (start + i * B) stop); [lia|reflexivity].
  - destruct (Nat.ltb_spec start stop) as [Hlt|Hge].
    + destruct i as [|i]; simpl.
      * rewrite Nat.add_0_r.
        destruct (Nat.ltb_spec start stop); [reflexivity|lia].
      * rewrite IH by lia.
        replace (start + B + i * B)%nat with (start + (B + i * B))%nat by lia.
        reflexivity.
    + destruct (Nat.ltb_spec (start + i * B) stop); [lia|reflexivity].
Qed.

Lemma chunks_lookup {A} (B : nat) (l : list A) (i : nat) :
  (0 < B)%nat →
  chunks B l !! i
  = if (i * B <? length l)%nat then Some (take B (drop (i * B) l)) else None.
Proof.
  intros HB. unfold chunks, Py.range.
  change (map ?f ?xs) with (f <$> xs).
  rewrite list_lookup_fmap, range_from_lookup by lia. simpl.
  destruct (i * B <? length l)%nat; [|reflexivity]. simpl.
  unfold Py.slice. do 2 f_equal. lia.
Qed.

Lemma chunks_count {A} (B : nat) (l : list A) :
  (0 < B)%nat → l ≠ [] →
  ((length (chunks B l) - 1) * B < length l ≤ length (chunks B l) * B)%nat
  ∧ (0 < length (chunks B l))%nat.
Proof.
  intros HB Hl.
  assert (Hpos : (0 < length l)%nat) by (destruct l; [done|simpl; lia]).
  assert (Hlook : ∀ i, (i < length (chunks B l))%nat ↔ (i * B < length l)%nat).
  { intros i. rewrite <- lookup_lt_is_Some, chunks_lookup by exact HB.
    destruct (Nat.ltb_spec (i * B) (length l)) as [Hlt|Hge].
    - split; [intros _; exact Hlt | intros _; by eexists].
    - split; [intros [? [=]] | lia]. }
  assert (H0 : (0 < length (chunks B l))%nat) by (apply Hlook; lia).
  split; [|exact H0]. split.
  - apply Hlook. lia.
  - destruct (Nat.le_gt_cases (length l) (length (chunks B l) * B))
      as [|Hgt]; [done|].
    apply Hlook in Hgt. lia.
Qed.

(** X1.  For a non-empty universe and a readable clock the scheduler always
    returns: the batch is the slice [tickers[idx*B : idx*B + B]] for
    [idx = slot mod total], it is not empty and holds at most [B] symbols,
    and [total] is the number of symbols over [B], rounded up. *)
Theorem batch_is_a_slice {A : Type} (B : nat) (tickers : list A) (t : float)
    (s : Z) :
  (0 < B)%nat → tickers ≠ [] → slot_of_time t = Return s →
  ∃ idx total : nat,
    batches_for B t tickers
    = Return (take B (drop (idx * B) tickers), Z.of_nat idx, Z.of_nat total)
    ∧ Z.of_nat idx = s mod Z.of_nat total
    ∧ (idx < total)%nat
    ∧ ((total - 1) * B < length tickers ≤ total * B)%nat
    ∧ (0 < length (take B (drop (idx * B) tickers)) ≤ B)%nat.
Proof.
  intros HB Hne Hs.
  destruct (chunks_count B tickers HB Hne) as [Hcount Hpos].
  destruct (batch_for_slot_lookup B tickers s Hne) as (b & Hb & Hret).
  pose proof (Z.mod_pos_bound s (Z.of_nat (length (chunks B tickers)))
                ltac:(lia)) as Hmod.
  rewrite chunks_lookup in Hb by exact HB.
  destruct (Nat.ltb_spec
              (Z.to_nat (s mod Z.of_nat (length (chunks B tickers))) * B)
              (length tickers)) as [Hin|]; [|discriminate].
  injection Hb as <-.
  exists (Z.to_nat (s mod Z.of_nat (length (chunks B tickers)))),
    (length (chunks B tickers)).
  rewrite Z2Nat.id by lia.
  split; [|split; [|split; [|split]]].
  - rewrite (batches_for_at_slot B tickers t s Hne Hs). exact Hret.
  - reflexivity.
  - lia.
  - exact Hcount.
  - rewrite length_take, length_drop. lia.
Qed.

Lemma batch_is_a_slice_witness :
  ∃ idx total : nat,
    batches_for 2 300%float ["A"; "B"; "C"; "D"; "E"]
    = Return (take 2 (drop (idx * 2) ["A"; "B"; "C"; "D"; "E"]),
              Z.of_nat idx, Z.of_nat total)
    ∧ Z.of_nat idx = 1 mod Z.of_nat total
    ∧ (idx < total)%nat
    ∧ ((total - 1) * 2 < length ["A"; "B"; "C"; "D"; "E"] ≤ total * 2)%nat
    ∧ (0 < length (take 2 (drop (idx * 2) ["A"; "B"; "C"; "D"; "E"])) ≤ 2)%nat.
Proof.
  apply (batch_is_a_slice 2 ["A"; "B"; "C"; "D"; "E"] 300%float 1);
    [lia | discriminate | vm_compute; reflexivity].
Defined.

(** X2.  The batches come in order and wrap around: if a slot selects the
    batch of index [idx] among [total], the next slot selects the batch of
    index [(idx + 1) mod total], and the slot [total] windows later selects
    the same batch again. *)
Theorem next_slot_next_batch {A : Type} (B : nat) (tickers : list A) (s : Z)
    (b : list A) (idx total : Z) :
  batch_for_slot B tickers s = Return (b, idx, total) →
  (∃ b', batch_for_slot B tickers (s + 1)
         = Return (b', (idx + 1) mod total, total))
  ∧ batch_for_slot B tickers (s + total) = Return (b, idx, total).
Proof.
  unfold batch_for_slot.
  destruct (chunks B tickers) as [|c cs] eqn:Hcs; [discriminate|].
  set (k := Z.of_nat (length (c :: cs))).
  assert (Hk : 0 < k) by (subst k; simpl; lia).
  destruct ((c :: cs) !! Z.to_nat (s mod k)) as [b0|] eqn:Hb; [|discriminate].
  intros [= <- <- <-]. split.
  - pose proof (Z.mod_pos_bound (s + 1) k Hk) as Hbound.
    destruct (lookup_lt_is_Some_2 (c :: cs) (Z.to_nat ((s + 1) mod k)))
      as [b' Hb'].
    { subst k. lia. }
    exists b'. rewrite Hb'. rewrite Zplus_mod_idemp_l. reflexivity.
  - replace ((s + k) mod k) with (s mod k).
    + rewrite Hb. reflexivity.
    + rewrite <- (Z.mul_1_l k) at 2. rewrite Z.mod_add by lia. reflexivity.
Qed.

Lemma next_slot_next_batch_witness :
  (∃ b', batch_for_slot 2 ["A"; "B"; "C"; "D"; "E"] (2 + 1)
         = Return (b', (2 + 1) mod 3, 3))
  ∧ batch_for_slot 2 ["A"; "B"; "C"; "D"; "E"] (2 + 3) = Return (["E"], 2, 3).
Proof.
  apply (next_slot_next_batch 2 ["A"; "B"; "C"; "D"; "E"] 2 ["E"] 2 3).
  vm_compute. reflexivity.
Defined.

(** ** The clock: windows and time stamps *)



(** ** The universe of tickers *)

Lemma foldl_sanitise_step normalise acc data :
  foldl (sanitise_step normalise) acc data
  = acc ++ omap (kept_symbol normalise) data.
Proof.
  revert acc. induction data as [|sym data IH]; intros acc; simpl.
  - rewrite app_nil_r. reflexivity.
  - rewrite IH. destruct sym as [[|c sym]|]; simpl; try reflexivity.
    destruct (has_separator (normalise (String c sym))); simpl.
    + reflexivity.
    + rewrite <- app_assoc. reflexivity.
Qed.

(** X4.  The sanitising loop keeps, in the order of the listing, the
    normalised form of every entry whose symbol is a non-empty string and
    whose normalised form has no space, slash or dot; so no symbol it
    extracts contains one of these, and it extracts at most one symbol per
    entry.  [normalise] is [sym.strip().upper()]. *)
Theorem sanitise_keeps_clean_symbols (normalise : string -> string)
    (data : list (option string)) :
  sanitise normalise data = omap (kept_symbol normalise) data
  ∧ Forall (fun su => has_separator su = false) (sanitise normalise data)
  ∧ (∀ su, su ∈ sanitise normalise data →
           ∃ sym, Some sym ∈ data ∧ sym ≠ EmptyString ∧ su = normalise sym)
  ∧ (length (sanitise normalise data) ≤ length data)%nat.
Proof.
  assert (Heq : sanitise normalise data = omap (kept_symbol normalise) data).
  { unfold sanitise. rewrite foldl_sanitise_step. reflexivity. }
  assert (Hkept : ∀ su sym, kept_symbol normalise sym = Some su →
            has_separator su = false
            ∧ ∃ s, sym = Some s ∧ s ≠ EmptyString ∧ su = normalise s).
  { intros su [[|c s]|]; simpl; try discriminate.
    destruct (has_separator (normalise (String c s))) eqn:Hsep;
      [discriminate|].
    intros [= <-]. split; [exact Hsep|]. by exists (String c s). }
  rewrite Heq. split; [reflexivity|]. split; [|split].
  - apply Forall_forall. intros su Hsu.
    apply list_elem_of_omap in Hsu as (sym & _ & Hsym).
    apply (Hkept su sym Hsym).
  - intros su Hsu.
    apply list_elem_of_omap in Hsu as (sym & Hin & Hsym).
    destruct (Hkept su sym Hsym) as (_ & s & -> & Hs & ->). eauto.
  - clear. induction data as [|sym data IH]; [simpl; lia|].
    cbn [omap list_omap]. destruct (kept_symbol normalise sym);
      cbn [length] in *; lia.
Qed.

(** The listing of the provider as the source cleans it; a symbol of white
    space only passes as the empty ticker. *)
Example sanitise_sample :
  sanitise Text.strip_upper
    [Some " aapl "; None; Some "BRK.B"; Some ""; Some "msft"; Some "A/B";
     Some "x y"; Some "  "]
  = ["AAPL"; "MSFT"; ""].
Proof. vm_compute. reflexivity. Qed.

(** X5.  Whenever [get_tickers] returns, the tickers are not empty and are
    the ones in the document it returns; either they are the stored ones,
    the stored list being younger than a day, with document and file
    untouched, or they are the first [MAX_TICKERS] of the provider's list,
    stamped with the time of the fetch and saved. *)
Theorem get_tickers_result (w : World) (state : State) (file : File)
    (tickers : list string) (state1 : State) (file1 : File) :
  get_tickers w state file = Completed (tickers, state1, file1) →
  tickers ≠ []
  ∧ st_tickers state1 = Some tickers
  ∧ ((st_tickers state = Some tickers ∧ state1 = state ∧ file1 = file
      ∧ ∃ now, now_ts (clock w) = Return now
               ∧ now - default 0 (st_tickers_fetched_at state) < DAY_SECONDS)
     ∨ (∃ extracted now,
          symbols_http w = Return extracted
          ∧ now_ts (clock w) = Return now
          ∧ tickers = take MAX_TICKERS extracted
          ∧ (length tickers ≤ MAX_TICKERS)%nat
          ∧ st_tickers_fetched_at state1 = Some now
          ∧ file1 = save_state w state1 file)).
Proof.
  unfold get_tickers.
  set (refresh := match symbols_http w with Raise _ => _ | Return _ => _ end).
  assert (Hrefresh : refresh = Completed (tickers, state1, file1) →
    tickers ≠ [] ∧ st_tickers state1 = Some tickers
    ∧ ∃ extracted now,
        symbols_http w = Return extracted
        ∧ now_ts (clock w) = Return now
        ∧ tickers = take MAX_TICKERS extracted
        ∧ (length tickers ≤ MAX_TICKERS)%nat
        ∧ st_tickers_fetched_at state1 = Some now
        ∧ file1 = save_state w state1 file).
  { subst refresh. destruct (symbols_http w) as [e|extracted]; [done|].
    destruct extracted as [|x xs]; [done|].
    destruct (now_ts (clock w)) as [e|now]; [done|].
    intros [= <- <- <-]. simpl. split; [discriminate|]. split; [reflexivity|].
    exists (x :: xs), now. repeat split.
    rewrite length_take. unfold MAX_TICKERS. lia. }
  destruct (st_tickers state) as [[|t ts]|] eqn:Hst;
    try (intros H; destruct (Hrefresh H) as (? & ? & ?); by auto).
  destruct (now_ts (clock w)) as [e|now] eqn:Hnow; [done|].
  destruct (Z.ltb_spec (now - default 0 (st_tickers_fetched_at state))
              DAY_SECONDS) as [Hfresh|Hstale].
  - intros [= <- <- <-]. split; [discriminate|]. split; [exact Hst|].
    left. repeat split. exists now. by split.
  - intros H. destruct (Hrefresh H) as (? & ? & ?). by auto.
Qed.

Lemma get_tickers_result_witness :
  ["AAA"; "BBB"] ≠ []
  ∧ st_tickers
      {| st_tickers := Some ["AAA"; "BBB"];
         st_tickers_fetched_at := Some 1700000000;
         st_alerts_sent := None; st_hot_list := None; st_last_run := None |}
    = Some ["AAA"; "BBB"]
  ∧ ((st_tickers empty_state = Some ["AAA"; "BBB"]
      ∧ {| st_tickers := Some ["AAA"; "BBB"];
           st_tickers_fetched_at := Some 1700000000;
           st_alerts_sent := None; st_hot_list := None; st_last_run := None |}
        = empty_state
      ∧ Stored {| st_tickers := Some ["AAA"; "BBB"];
                  st_tickers_fetched_at := Some 1700000000;
                  st_alerts_sent := None; st_hot_list := None;
                  st_last_run := None |} = Missing
      ∧ ∃ now, now_ts (clock (Sample.world Sample.hist 204)) = Return now
               ∧ now - default 0 (st_tickers_fetched_at empty_state)
                 < DAY_SECONDS)
     ∨ (∃ extracted now,
          symbols_http (Sample.world Sample.hist 204) = Return extracted
          ∧ now_ts (clock (Sample.world Sample.hist 204)) = Return now
          ∧ ["AAA"; "BBB"] = take MAX_TICKERS extracted
          ∧ (length ["AAA"; "BBB"] ≤ MAX_TICKERS)%nat
          ∧ st_tickers_fetched_at
              {| st_tickers := Some ["AAA"; "BBB"];
                 st_tickers_fetched_at := Some 1700000000;
                 st_alerts_sent := None; st_hot_list := None;
                 st_last_run := None |} = Some now
          ∧ Stored {| st_tickers := Some ["AAA"; "BBB"];
                      st_tickers_fetched_at := Some 1700000000;
                      st_alerts_sent := None; st_hot_list := None;
                      st_last_run := None |}
            = save_state (Sample.world Sample.hist 204)
                {| st_tickers := Some ["AAA"; "BBB"];
                   st_tickers_fetched_at := Some 1700000000;
                   st_alerts_sent := None; st_hot_list := None;
                   st_last_run := None |} Missing)).
Proof.
  apply (get_tickers_result (Sample.world Sample.hist 204) empty_state Missing).
  vm_compute. reflexivity.
Defined.

(** ** The scan set *)

Lemma elem_of_fromkeys (seen : gset string) (l : list string) (x : string) :
  x ∈ fromkeys seen l ↔ x ∈ l ∧ x ∉ seen.
Proof.
  revert seen. induction l as [|y l IH]; intros seen; simpl.
  - split; [intros H; by apply elem_of_nil in H|].
    intros [H _]. by apply elem_of_nil in H.
  - case_bool_decide as Hy.
    + rewrite IH, elem_of_cons. split; [intros [? ?]; by auto|].
      intros [[->|?] ?]; [contradiction|by split].
    + rewrite !elem_of_cons, IH, elem_of_union, elem_of_singleton.
      destruct (decide (x = y)) as [->|Hne]; [tauto|]. tauto.
Qed.

Lemma NoDup_fromkeys (seen : gset string) (l : list string) :
  NoDup (fromkeys seen l).
Proof.
  revert seen. induction l as [|y l IH]; intros seen; simpl.
  - constructor.
  - case_bool_decide as Hy; [apply IH|].
    constructor; [|apply IH]. rewrite elem_of_fromkeys, elem_of_union,
      elem_of_singleton. tauto.
Qed.

Lemma fromkeys_app (seen : gset string) (l1 l2 : list string) :
  fromkeys seen (l1 ++ l2)
  = fromkeys seen l1 ++ fromkeys (list_to_set l1 ∪ seen) l2.
Proof.
  revert seen. induction l1 as [|y l1 IH]; intros seen; simpl.
  - f_equal. set_solver.
  - case_bool_decide as Hy.
    + rewrite IH. do 2 f_equal. set_solver.
    + simpl. rewrite IH. do 3 f_equal. set_solver.
Qed.

Lemma fromkeys_NoDup_id (seen : gset string) (l : list string) :
  NoDup l → (∀ x, x ∈ l → x ∉ seen) → fromkeys seen l = l.
Proof.
  intros Hnd. revert seen. induction Hnd as [|y l Hy Hnd IH]; intros seen Hs.
  - reflexivity.
  - simpl. rewrite bool_decide_eq_false_2 by (apply Hs; left).
    f_equal. apply IH. intros x Hx. specialize (Hs x (list_elem_of_further _ _ _ Hx)).
    set_solver.
Qed.

Lemma fromkeys_NoDup_filter (seen : gset string) (l : list string) :
  NoDup l →
  fromkeys seen l = List.filter (fun x => negb (bool_decide (x ∈ seen))) l.
Proof.
  intros Hnd. revert seen. induction Hnd as [|y l Hy Hnd IH]; intros seen.
  - reflexivity.
  - simpl. case_bool_decide as Hin; simpl; [apply IH|].
    f_equal. rewrite IH. apply List.filter_ext_in. intros x Hx.
    apply list_elem_of_In in Hx. f_equal.
    apply bool_decide_ext. set_solver.
Qed.

(** X6.  The scan set has no ticker twice and holds exactly the tickers of
    the batch and of the hot list; when the batch has no ticker twice, it
    is the batch, in its order, followed by the hot-list tickers that are
    not in the batch. *)
Theorem scan_set_is_batch_then_hot (batch : list string)
    (hot_list : gset string) :
  NoDup (scan_set_of batch hot_list)
  ∧ (∀ x, x ∈ scan_set_of batch hot_list ↔ x ∈ batch ∨ x ∈ hot_list)
  ∧ (NoDup batch →
     scan_set_of batch hot_list
     = batch ++ List.filter (fun x => negb (bool_decide (x ∈ batch)))
                            (elements hot_list)).
Proof.
  unfold scan_set_of. split; [apply NoDup_fromkeys|]. split.
  - intros x. rewrite elem_of_fromkeys, elem_of_app, elem_of_elements.
    set_solver.
  - intros Hnd. rewrite fromkeys_app.
    rewrite (fromkeys_NoDup_id ∅ batch Hnd) by set_solver.
    f_equal. rewrite fromkeys_NoDup_filter by apply NoDup_elements.
    apply List.filter_ext. intros x. f_equal.
    apply bool_decide_ext. set_solver.
Qed.

Example scan_set_sample :
  scan_set_of ["C"; "A"; "C"] {["A"; "B"]} = ["C"; "A"; "B"].
Proof. vm_compute. reflexivity. Qed.

(** ** Evaluation: when there is nothing to evaluate *)

(** X7.  A history of fewer than three rows, or one whose previous close is
    zero, negative or missing as zero, gives no signal, whatever the alert
    history and the rest of the rows. *)
Theorem unusable_history_gives_no_signal (w : World) (ticker : string)
    (a : Alerts) (hist : list Bar) :
  yf_history w ticker = Return hist →
  ((length hist < 3)%nat
   ∨ ∃ front yesterday today,
       hist = front ++ [yesterday; today]
       ∧ PrimFloat.leb (Py.float_or (Close yesterday) 0) 0 = true) →
  analyze_ticker w ticker a = None.
Proof.
  intros Hhist Hbad. rewrite analyze_ticker_reading. unfold reading.
  rewrite Hhist. destruct Hbad as [Hshort|(front & y & today & -> & Hprev)].
  - destruct (Nat.ltb_spec (length hist) 3); [reflexivity|lia].
  - destruct (length (front ++ [y; today]) <? 3)%nat; [reflexivity|].
    replace (front ++ [y; today]) with ((front ++ [y]) ++ [today])
      by (rewrite <- app_assoc; reflexivity).
    rewrite last_snoc, removelast_last, last_snoc.
    destruct (Volume today); [|reflexivity].
    rewrite Hprev. reflexivity.
Qed.

Lemma unusable_history_gives_no_signal_witness :
  analyze_ticker (Sample.world (drop 24 Sample.hist) 204) "AAA" ∅ = None
  ∧ analyze_ticker (Sample.world Sample2.zero_hist 204) "AAA" ∅ = None.
Proof.
  split.
  - apply (unusable_history_gives_no_signal
             (Sample.world (drop 24 Sample.hist) 204) "AAA" ∅
             (drop 24 Sample.hist)); [reflexivity|].
    left. vm_compute. lia.
  - apply (unusable_history_gives_no_signal
             (Sample.world Sample2.zero_hist 204) "AAA" ∅ Sample2.zero_hist);
      [reflexivity|].
    right. exists [Sample.prior_bar], Sample2.zero_bar, Sample.today_bar.
    split; [reflexivity|]. vm_compute. reflexivity.
Defined.

Lemma int_mean_nonempty (s : list Z) :
  s ≠ [] → Pd.int_mean s
           = Return (Z.quot (Pd.sum s) (Z.of_nat (length s))).
Proof. destruct s; [done|reflexivity]. Qed.

Lemma average_volume_returns (vol_series : list Z) :
  ∃ avg, average_volume vol_series = Return avg.
Proof.
  unfold average_volume.
  destruct (Nat.leb_spec 5 (length vol_series)) as [Hlen|Hlen].
  - rewrite int_mean_nonempty; [by eexists|].
    intros Htail. apply (f_equal length) in Htail.
    unfold Pd.tail in Htail. rewrite length_drop in Htail. simpl in Htail. lia.
  - destruct (Nat.ltb_spec 0 (length vol_series)) as [Hpos|]; [|by eexists].
    rewrite int_mean_nonempty; [by eexists|].
    intros ->. simpl in Hpos. lia.
Qed.

(** X8.  The evaluation raises in two cases only: the fetch of the history
    raises, or the history has at least three rows and today's volume is
    missing (then it is a [ValueError]).  Nothing else in it raises: the
    average is never taken over an empty series, and the two rows it reads
    are there. *)
Theorem evaluation_raises_only_on_fetch_or_volume (w : World)
    (ticker : string) (a : Alerts) (e : exn) :
  analyze_body w ticker a = Raise e
  ↔ yf_history w ticker = Raise e
    ∨ (∃ hist today,
         yf_history w ticker = Return hist
         ∧ (3 ≤ length hist)%nat
         ∧ last hist = Some today
         ∧ Volume today = None
         ∧ e = ValueError).
Proof.
  unfold analyze_body.
  destruct (yf_history w ticker) as [e'|hist] eqn:Hh; simpl.
  - split; [intros [= ->]; by left|].
    intros [[= ->]|(hist & today & [=] & _)]. reflexivity.
  - destruct (Nat.ltb_spec (length hist) 3) as [Hshort|Hlen].
    + split; [discriminate|].
      intros [[=]|(hist' & today & [= <-] & Hlen & _)]. lia.
    + destruct (last hist) as [today|] eqn:Ht.
      2:{ apply last_None in Ht. subst hist. simpl in Hlen. lia. }
      destruct (last (removelast hist)) as [yesterday|] eqn:Hy.
      2:{ apply last_None in Hy. apply (f_equal length) in Hy.
          rewrite removelast_firstn_len, length_take in Hy.
          simpl in Hy. lia. }
      unfold analyze_rows.
      destruct (Volume today) as [v|] eqn:Hv; simpl.
      * split.
        -- destruct (PrimFloat.leb _ 0); [discriminate|].
           destruct (average_volume_returns (Pd.dropna (map Volume hist)))
             as [avg ->]. simpl.
           match goal with
           | |- context [if ?c then _ else _] => destruct c
           end; discriminate.
        -- intros [[=]|(hist' & today' & [= <-] & _ & Ht' & Hv' & _)].
           congruence.
      * split.
        -- intros [= <-]. right. exists hist, today. by repeat split.
        -- intros [[=]|(_ & _ & _ & _ & _ & _ & ->)]. reflexivity.
Qed.

(** ** Evaluation: triggers and thresholds of a result *)

Lemma analyze_ticker_verdict (w : World) (ticker : string) (a : Alerts)
    (res : Result) :
  analyze_ticker w ticker a = Some res →
  ∃ r, reading w ticker = Some r ∧ verdict ticker a r = Some res.
Proof.
  rewrite analyze_ticker_reading.
  destruct (reading w ticker) as [r|]; [|discriminate].
  intros H. by exists r.
Qed.

Lemma verdict_Some (ticker : string) (a : Alerts) (r : Reading)
    (res : Result) :
  verdict ticker a r = Some res →
  triggers res = reading_triggers r
  ∧ change_pct res = reading_change r
  ∧ price res = rd_price r
  ∧ new_thresholds res
    = fresh_thresholds (reading_change r)
        (list_to_set (recorded_thresholds a ticker))
  ∧ prebreak_hit res
    = (2 <=? length (reading_triggers r))%nat
      && negb (recorded_prebreak a ticker)
  ∧ (new_thresholds res ≠ [] ∨ prebreak_hit res = true).
Proof.
  unfold verdict.
  destruct (negb (bool_decide _) || _) eqn:Hc; [|discriminate].
  intros [= <-]. simpl. repeat split.
  apply orb_true_iff in Hc as [Hc|Hc]; [left|right; exact Hc].
  apply negb_true_iff, bool_decide_eq_false in Hc. exact Hc.
Qed.

Lemma verdict_sentiment (ticker : string) (a : Alerts) (r : Reading)
    (res : Result) :
  verdict ticker a r = Some res →
  sentiment res = rd_sentiment r ∧ r_ticker res = ticker
  ∧ vol res = rd_vol r ∧ avg_vol res = rd_avg_vol r.
Proof.
  unfold verdict.
  destruct (negb (bool_decide _) || _); [|discriminate].
  intros [= <-]. by repeat split.
Qed.

Lemma verdict_fires (ticker : string) (a : Alerts) (r : Reading) :
  fresh_thresholds (reading_change r)
    (list_to_set (recorded_thresholds a ticker)) ≠ []
  ∨ (2 <=? length (reading_triggers r))%nat
    && negb (recorded_prebreak a ticker) = true →
  ∃ res, verdict ticker a r = Some res.
Proof.
  intros Hsig. unfold verdict.
  destruct (negb (bool_decide _) || _) eqn:Hc; [by eexists|].
  apply orb_false_iff in Hc as [Hf Hh].
  apply negb_false_iff, bool_decide_eq_true in Hf.
  destruct Hsig as [Hsig|Hsig]; congruence.
Qed.

Lemma verdict_None (ticker : string) (a : Alerts) (r : Reading) :
  verdict ticker a r = None
  ↔ fresh_thresholds (reading_change r)
      (list_to_set (recorded_thresholds a ticker)) = []
    ∧ (2 <=? length (reading_triggers r))%nat
      && negb (recorded_prebreak a ticker) = false.
Proof.
  unfold verdict.
  destruct (negb (bool_decide _) || _) eqn:Hc.
  - split; [discriminate|]. intros [Hf Hh].
    apply orb_true_iff in Hc as [Hc|Hc]; [|congruence].
    apply negb_true_iff, bool_decide_eq_false in Hc. contradiction.
  - split; [intros _|reflexivity].
    apply orb_false_iff in Hc as [Hf Hh].
    apply negb_false_iff, bool_decide_eq_true in Hf. by split.
Qed.

Lemma reading_triggers_shape (r : Reading) :
  length (reading_triggers r) = conditions_met r
  ∧ StronglySorted lt (map kind (reading_triggers r)).
Proof.
  unfold reading_triggers, conditions_met, build_triggers, positive_news,
    is_breakout.
  destruct (PrimFloat.leb GAP_THRESHOLD _), (is_unusual_vol _ _);
    (destruct (rd_high20 r) as [h|];
     [destruct (PrimFloat.ltb h (rd_price r))|]);
    (destruct (rd_sentiment r) as [s|];
     [destruct (PrimFloat.leb SENTIMENT_POSITIVE s)|]);
    (split; [reflexivity|]); by apply (bool_decide_unpack _).
Qed.

(** X9.  The triggers of a result come in the order gap, unusual volume,
    breakout, sentiment, each at most once, and there are as many as
    trigger conditions hold for the ticker's reading; the pre-breakout is
    reported exactly when at least two conditions hold and the latch is not
    set. *)
Theorem prebreak_needs_two_conditions (w : World) (ticker : string)
    (a : Alerts) (res : Result) :
  analyze_ticker w ticker a = Some res →
  ∃ r, reading w ticker = Some r
       ∧ triggers res = reading_triggers r
       ∧ length (triggers res) = conditions_met r
       ∧ (conditions_met r ≤ 4)%nat
       ∧ StronglySorted lt (map kind (triggers res))
       ∧ (prebreak_hit res = true
          ↔ (2 ≤ conditions_met r)%nat ∧ recorded_prebreak a ticker = false).
Proof.
  intros Hres.
  destruct (analyze_ticker_verdict _ _ _ _ Hres) as (r & Hr & Hv).
  destruct (verdict_Some _ _ _ _ Hv) as (Htr & _ & _ & _ & Hhit & _).
  destruct (reading_triggers_shape r) as [Hlen Hsorted].
  exists r. split; [exact Hr|]. split; [exact Htr|]. rewrite Htr.
  split; [exact Hlen|]. split.
  - unfold conditions_met.
    assert (Hb : ∀ b : bool, (Nat.b2n b ≤ 1)%nat) by (intros []; simpl; lia).
    pose proof (Hb (PrimFloat.leb GAP_THRESHOLD
                      (pct_over (rd_open r) (rd_prev_close r)))).
    pose proof (Hb (is_unusual_vol (rd_vol r) (rd_avg_vol r))).
    pose proof (Hb (is_breakout (rd_high20 r) (rd_price r))).
    pose proof (Hb (positive_news (rd_sentiment r))).
    lia.
  - split; [exact Hsorted|].
    rewrite Hhit, Hlen, andb_true_iff, negb_true_iff, Nat.leb_le.
    reflexivity.
Qed.

Lemma prebreak_needs_two_conditions_witness :
  ∃ res r,
    reading (Sample.world Sample.hist 204) "AAA" = Some r
    ∧ triggers res = reading_triggers r
    ∧ length (triggers res) = conditions_met r
    ∧ (conditions_met r ≤ 4)%nat
    ∧ StronglySorted lt (map kind (triggers res))
    ∧ (prebreak_hit res = true
       ↔ (2 ≤ conditions_met r)%nat
         ∧ recorded_prebreak (rs_alerts Sample.fresh) "AAA" = false).
Proof.
  destruct (analyze_ticker (Sample.world Sample.hist 204) "AAA"
              (rs_alerts Sample.fresh)) as [res|] eqn:Hres;
    [|vm_compute in Hres; discriminate Hres].
  exists res.
  exact (prebreak_needs_two_conditions (Sample.world Sample.hist 204) "AAA"
           (rs_alerts Sample.fresh) res Hres).
Defined.

Lemma filter_thresholds_sorted (p : Z → bool) :
  StronglySorted Z.lt (List.filter p THRESHOLDS).
Proof.
  unfold THRESHOLDS. simpl.
  destruct (p 5), (p 10), (p 20); by apply (bool_decide_unpack _).
Qed.

(** X10.  The new levels of a result are exactly the configured levels that
    the change has reached and that are not recorded for the ticker; they
    are listed in increasing order; and a result always carries a signal:
    a new level or the pre-breakout. *)
Theorem new_levels_are_the_unrecorded_reached (w : World) (ticker : string)
    (a : Alerts) (res : Result) :
  analyze_ticker w ticker a = Some res →
  (∀ th, th ∈ new_thresholds res
         ↔ th ∈ THRESHOLDS
           ∧ PrimFloat.leb (Py.float_of_Z th) (change_pct res) = true
           ∧ th ∉ recorded_thresholds a ticker)
  ∧ StronglySorted Z.lt (new_thresholds res)
  ∧ (new_thresholds res ≠ [] ∨ prebreak_hit res = true).
Proof.
  intros Hres.
  destruct (analyze_ticker_verdict _ _ _ _ Hres) as (r & _ & Hv).
  destruct (verdict_Some _ _ _ _ Hv) as (_ & Hc & _ & Hnew & _ & Hsig).
  split; [|split; [|exact Hsig]].
  - intros th. rewrite Hnew, Hc, elem_of_fresh_thresholds, elem_of_list_to_set.
    reflexivity.
  - rewrite Hnew. apply filter_thresholds_sorted.
Qed.

Lemma new_levels_are_the_unrecorded_reached_witness :
  ∃ res,
    new_thresholds res = [5; 10]
    ∧ (∀ th, th ∈ new_thresholds res
             ↔ th ∈ THRESHOLDS
               ∧ PrimFloat.leb (Py.float_of_Z th) (change_pct res) = true
               ∧ th ∉ recorded_thresholds (rs_alerts Sample.fresh) "AAA")
    ∧ StronglySorted Z.lt (new_thresholds res)
    ∧ (new_thresholds res ≠ [] ∨ prebreak_hit res = true).
Proof.
  destruct (analyze_ticker (Sample.world Sample.surge_hist 204) "AAA"
              (rs_alerts Sample.fresh)) as [res|] eqn:Hres;
    [|vm_compute in Hres; discriminate Hres].
  exists res. split.
  - vm_compute in Hres. injection Hres as <-. reflexivity.
  - exact (new_levels_are_the_unrecorded_reached
             (Sample.world Sample.surge_hist 204) "AAA"
             (rs_alerts Sample.fresh) res Hres).
Defined.

(** *** The order of floats, once more *)

Lemma SFleb_key (a b : spec_float) :
  a ≠ S754_nan → b ≠ S754_nan →
  (SFleb a b = true ↔ ¬ lex_lt (sf_key b) (sf_key a)).
Proof.
  intros Ha Hb. unfold SFleb, lex_lt.
  destruct a as [[]|[]| |[] ma ea], b as [[]|[]| |[] mb eb];
    try congruence; simpl; try (split; [intros _; lia|reflexivity]);
    try (split; [discriminate|lia]).
  all: change (PosDef.Pos.compare_cont Eq ma mb) with (Pos.compare ma mb);
    destruct (Z.compare_spec ea eb), (Pos.compare_spec ma mb); simpl;
    split; try discriminate; try reflexivity; try lia.
Qed.

Lemma SFleb_not_nan (a b : spec_float) :
  SFleb a b = true → a ≠ S754_nan ∧ b ≠ S754_nan.
Proof.
  unfold SFleb. destruct a, b; simpl; try discriminate; by split.
Qed.

Lemma float_leb_trans (a b c : float) :
  PrimFloat.leb a b = true → PrimFloat.leb b c = true →
  PrimFloat.leb a c = true.
Proof.
  rewrite !FloatAxioms.leb_spec. intros Hab Hbc.
  destruct (SFleb_not_nan _ _ Hab) as [Ha Hb].
  destruct (SFleb_not_nan _ _ Hbc) as [_ Hc].
  apply (SFleb_key _ _ Ha Hb) in Hab. apply (SFleb_key _ _ Hb Hc) in Hbc.
  apply (SFleb_key _ _ Ha Hc). unfold lex_lt in *. lia.
Qed.

(** X11.  A larger change crosses at least the same levels: every level
    that is new at one percent change is new at any change at or above
    it, for the same recorded levels. *)
Theorem larger_change_crosses_more (c1 c2 : float) (prev : gset Z) (th : Z) :
  PrimFloat.leb c1 c2 = true →
  th ∈ fresh_thresholds c1 prev → th ∈ fresh_thresholds c2 prev.
Proof.
  intros Hle. rewrite !elem_of_fresh_thresholds.
  intros (Hth & Hc1 & Hprev). split; [exact Hth|]. split; [|exact Hprev].
  exact (float_leb_trans _ _ _ Hc1 Hle).
Qed.

Lemma larger_change_crosses_more_witness :
  5 ∈ fresh_thresholds 12 ∅.
Proof.
  apply (larger_change_crosses_more 6 12 ∅ 5).
  - vm_compute. reflexivity.
  - vm_compute. left.
Defined.

(** ** Evaluation: NaN prices and a missing sentiment *)

Lemma is_nan_true (x : float) :
  Pd.is_nan x = true ↔ Prim2SF x = S754_nan.
Proof.
  pose proof (is_nan_false x) as H.
  destruct (Pd.is_nan x).
  - split; [intros _|reflexivity].
    destruct (Prim2SF x); try reflexivity;
      assert (true = false) as [=] by (apply H; discriminate).
  - split; [discriminate|]. intros Hx.
    assert (Hn : Prim2SF x ≠ S754_nan) by (apply H; reflexivity).
    contradiction.
Qed.

Lemma pct_over_nan (x prev_close : float) :
  Pd.is_nan x = true ∨ Pd.is_nan prev_close = true →
  Pd.is_nan (pct_over x prev_close) = true.
Proof.
  rewrite !is_nan_true. unfold pct_over.
  rewrite FloatAxioms.mul_spec, FloatAxioms.div_spec, FloatAxioms.sub_spec.
  unfold SF64mul, SF64div, SF64sub.
  intros [-> | ->].
  - destruct (Prim2SF prev_close); reflexivity.
  - destruct (Prim2SF x); reflexivity.
Qed.

Lemma float_leb_nan (x c : float) :
  Pd.is_nan c = true → PrimFloat.leb x c = false.
Proof.
  rewrite is_nan_true, FloatAxioms.leb_spec. intros ->.
  unfold SFleb. destruct (Prim2SF x); reflexivity.
Qed.

Lemma float_ltb_nan (x c : float) :
  Pd.is_nan c = true → PrimFloat.ltb x c = false.
Proof.
  intros Hc. destruct (PrimFloat.ltb x c) eqn:Hlt; [|reflexivity].
  apply float_ltb_not_nan in Hlt as [_ Hlt]. congruence.
Qed.

(** X12.  A close that is NaN crosses nothing: the change of such a result
    is NaN, no level is new and the breakout trigger is absent, so the
    result can only be a pre-breakout made of the other triggers. *)
Theorem nan_price_crosses_nothing (w : World) (ticker : string) (a : Alerts)
    (res : Result) :
  analyze_ticker w ticker a = Some res →
  Pd.is_nan (price res) = true →
  Pd.is_nan (change_pct res) = true
  ∧ new_thresholds res = []
  ∧ has_breakout (triggers res) = false
  ∧ prebreak_hit res = true.
Proof.
  intros Hres Hnan.
  destruct (analyze_ticker_verdict _ _ _ _ Hres) as (r & _ & Hv).
  destruct (verdict_Some _ _ _ _ Hv) as (Htr & Hc & Hp & Hnew & _ & Hsig).
  rewrite Hp in Hnan.
  assert (Hchange : Pd.is_nan (reading_change r) = true).
  { apply pct_over_nan. by left. }
  assert (Hnone : new_thresholds res = []).
  { rewrite Hnew. unfold fresh_thresholds, THRESHOLDS. simpl.
    rewrite !(float_leb_nan _ _ Hchange). reflexivity. }
  split; [by rewrite Hc|]. split; [exact Hnone|]. split.
  - rewrite Htr. unfold reading_triggers.
    rewrite has_breakout_build_triggers. unfold is_breakout.
    destruct (rd_high20 r); [|reflexivity]. by apply float_ltb_nan.
  - destruct Hsig as [Hsig|Hsig]; [congruence|exact Hsig].
Qed.

Lemma nan_price_crosses_nothing_witness :
  ∃ res,
    length (triggers res) = 2%nat
    ∧ Pd.is_nan (change_pct res) = true
    ∧ new_thresholds res = []
    ∧ has_breakout (triggers res) = false
    ∧ prebreak_hit res = true.
Proof.
  destruct (analyze_ticker (Sample.world Sample2.nan_hist 204) "AAA" ∅)
    as [res|] eqn:Hres; [|vm_compute in Hres; discriminate Hres].
  exists res. split.
  - vm_compute in Hres. injection Hres as <-. reflexivity.
  - apply (nan_price_crosses_nothing (Sample.world Sample2.nan_hist 204)
             "AAA" ∅ res Hres).
    vm_compute in Hres. injection Hres as <-. reflexivity.
Defined.

Lemma reading_without_sentiment (w : World) (ticker : string) :
  reading (without_sentiment w) ticker = drop_sentiment <$> reading w ticker.
Proof.
  unfold reading. simpl.
  destruct (yf_history w ticker) as [e|hist]; [reflexivity|].
  destruct (length hist <? 3)%nat; [reflexivity|].
  destruct (last hist) as [today|]; [|reflexivity].
  destruct (last (removelast hist)) as [yesterday|]; [|reflexivity].
  destruct (Volume today); [|reflexivity].
  destruct (PrimFloat.leb _ 0); [reflexivity|].
  destruct (average_volume _); reflexivity.
Qed.

Lemma reading_triggers_drop_sentiment (r : Reading) :
  reading_triggers (drop_sentiment r)
  = List.filter (fun t => negb (is_sentiment t)) (reading_triggers r)
  ∧ (length (reading_triggers (drop_sentiment r))
     ≤ length (reading_triggers r))%nat.
Proof.
  unfold reading_triggers, drop_sentiment, build_triggers, positive_news,
    is_breakout. simpl.
  destruct (PrimFloat.leb GAP_THRESHOLD _), (is_unusual_vol _ _);
    (destruct (rd_high20 r) as [h|];
     [destruct (PrimFloat.ltb h (rd_price r))|]);
    (destruct (rd_sentiment r) as [s|];
     [destruct (PrimFloat.leb SENTIMENT_POSITIVE s)|]);
    simpl; split; (reflexivity || lia).
Qed.

(** X13.  Losing the sentiment provider only removes signals: whatever a
    ticker yields without sentiment it yields with it, with the same price,
    change and new levels, the same triggers but for the sentiment one,
    and the pre-breakout if it was reported without. *)
Theorem sentiment_only_adds (w : World) (ticker : string) (a : Alerts)
    (res0 : Result) :
  analyze_ticker (without_sentiment w) ticker a = Some res0 →
  sentiment res0 = None
  ∧ ∃ res,
      analyze_ticker w ticker a = Some res
      ∧ price res = price res0
      ∧ change_pct res = change_pct res0
      ∧ new_thresholds res = new_thresholds res0
      ∧ triggers res0
        = List.filter (fun t => negb (is_sentiment t)) (triggers res)
      ∧ (prebreak_hit res0 = true → prebreak_hit res = true).
Proof.
  rewrite !analyze_ticker_reading, reading_without_sentiment.
  destruct (reading w ticker) as [r|]; [|discriminate]. simpl.
  intros H0.
  destruct (reading_triggers_drop_sentiment r) as [Hfilter Hlen].
  destruct (verdict_Some _ _ _ _ H0)
    as (Htr0 & Hc0 & Hp0 & Hnew0 & Hhit0 & Hsig0).
  destruct (verdict_sentiment _ _ _ _ H0) as (Hs0 & _).
  change (reading_change (drop_sentiment r)) with (reading_change r) in *.
  change (rd_price (drop_sentiment r)) with (rd_price r) in *.
  assert (Hmono : prebreak_hit res0 = true →
                  (2 <=? length (reading_triggers r))%nat
                  && negb (recorded_prebreak a ticker) = true).
  { rewrite Hhit0, !andb_true_iff, !Nat.leb_le.
    intros [? ?]. split; [lia|done]. }
  split; [exact Hs0|].
  destruct (verdict_fires ticker a r) as [res Hres].
  { destruct Hsig0 as [Hsig0|Hsig0]; [left; congruence|right; auto]. }
  exists res. split; [exact Hres|].
  destruct (verdict_Some _ _ _ _ Hres) as (Htr & Hc & Hp & Hnew & Hhit & _).
  repeat split; try congruence.
  intros Hh. rewrite Hhit. by apply Hmono.
Qed.

Lemma sentiment_only_adds_witness :
  ∃ res0,
    new_thresholds res0 = [5]
    ∧ sentiment res0 = None
    ∧ ∃ res,
        analyze_ticker (Sample.world Sample.hist 204) "AAA" ∅ = Some res
        ∧ price res = price res0
        ∧ change_pct res = change_pct res0
        ∧ new_thresholds res = new_thresholds res0
        ∧ triggers res0
          = List.filter (fun t => negb (is_sentiment t)) (triggers res)
        ∧ (prebreak_hit res0 = true → prebreak_hit res = true).
Proof.
  destruct (analyze_ticker (without_sentiment (Sample.world Sample.hist 204))
              "AAA" ∅) as [res0|] eqn:Hres;
    [|vm_compute in Hres; discriminate Hres].
  exists res0. split.
  - vm_compute in Hres. injection Hres as <-. reflexivity.
  - exact (sentiment_only_adds (Sample.world Sample.hist 204) "AAA" ∅ res0
             Hres).
Defined.

(** ** The run: what the messages hold *)

Lemma substring_length_le (n : nat) (s : string) :
  (String.length (String.substring 0 n s) ≤ n)%nat.
Proof.
  revert s. induction n as [|n IH]; intros [|c s]; simpl; try lia.
  specialize (IH s). lia.
Qed.

Lemma make_body_headlines (w : World) (ticker : string) (res : Result)
    (with_triggers : bool) :
  (length (b_headlines (make_body w ticker res with_triggers)) ≤ 3)%nat
  ∧ Forall (fun h => (String.length (headline h) ≤ 200)%nat)
           (b_headlines (make_body w ticker res with_triggers)).
Proof.
  unfold make_body, clip_headlines. simpl. split.
  - rewrite length_map. unfold fetch_news_headlines.
    destruct (news_http w ticker) as [e|[status data]]; simpl; [lia|].
    destruct (status =? 200); simpl; [|lia].
    rewrite length_take. lia.
  - apply Forall_forall. intros h Hh.
    apply list_elem_of_In, in_map_iff in Hh as (n & <- & _). simpl.
    apply substring_length_le.
Qed.

Lemma added_posts_Forall (P : Post → Prop) (w : World) (ticker : string)
    (r : option Result) :
  (∀ res th, r = Some res → th ∈ new_thresholds res →
             P (threshold_post w ticker res th)) →
  (∀ res, r = Some res → prebreak_hit res = true →
          P (prebreak_post w ticker res)) →
  Forall P (added_posts w ticker r).
Proof.
  intros Hth Hpre. destruct r as [res|]; simpl; [|constructor].
  apply Forall_app. split.
  - apply Forall_forall. intros p Hp.
    apply list_elem_of_In, in_map_iff in Hp as (th & <- & Hin).
    apply Hth; [reflexivity|]. by apply list_elem_of_In.
  - destruct (prebreak_hit res) eqn:Hhit; repeat constructor. by apply Hpre.
Qed.

(** X14.  Every message posted during a scan carries at most three
    headlines, each cut to at most 200 characters, however many items the
    news provider answers and however long their headlines are. *)
Theorem posts_carry_at_most_three_headlines (w : World)
    (scan_set : list string) (st : RunState) :
  Forall (fun p =>
            (length (b_headlines (p_body p)) ≤ 3)%nat
            ∧ Forall (fun h => (String.length (headline h) ≤ 200)%nat)
                     (b_headlines (p_body p)))
         (posted_since st (scan w scan_set st)).
Proof.
  apply (scan_invariant w (fun _ => True) _ (fun _ => True)); try done.
  - intros s t _. apply added_posts_Forall.
    + intros res th _ _. apply make_body_headlines.
    + intros res _ _. apply make_body_headlines.
  - intros s t _. apply Forall_true. done.
Qed.

Example headlines_sample :
  map (fun p => map (fun h => String.length (headline h))
                    (b_headlines (p_body p)))
      (rs_posts (scan (Sample2.news_world Sample.hist) ["AAA"] Sample.fresh))
  = [[200; 200; 200]; [200; 200; 200]]%nat.
Proof. vm_compute. reflexivity. Qed.

Lemma scan_extends (w : World) (l : list string) (s : RunState) :
  ∃ ps ls, rs_posts (scan w l s) = rs_posts s ++ ps
           ∧ rs_alerted (scan w l s) = rs_alerted s ++ ls.
Proof.
  revert s. induction l as [|u l IH]; intros s.
  - exists [], []. simpl. by rewrite !app_nil_r.
  - rewrite scan_cons.
    destruct (IH (process_ticker w s u)) as (ps & ls & Hps & Hls).
    rewrite Hps, Hls, process_ticker_posts, process_ticker_alerted,
      <- !app_assoc.
    by eexists _, _.
Qed.

(** What a scan adds is what its first ticker adds, then what the rest of
    the scan adds. *)
Lemma posted_since_cons (w : World) (t : string) (l : list string)
    (st : RunState) :
  posted_since st (scan w (t :: l) st)
  = added_posts w t (analyze_ticker w t (rs_alerts st))
    ++ posted_since (process_ticker w st t) (scan w l (process_ticker w st t)).
Proof.
  unfold posted_since. rewrite scan_cons.
  destruct (scan_extends w l (process_ticker w st t)) as (ps & ls & Hps & _).
  rewrite Hps, drop_app_length, process_ticker_posts, <- app_assoc,
    drop_app_length.
  reflexivity.
Qed.

Lemma alerted_since_cons (w : World) (t : string) (l : list string)
    (st : RunState) :
  alerted_since st (scan w (t :: l) st)
  = added_labels t (analyze_ticker w t (rs_alerts st))
    ++ alerted_since (process_ticker w st t)
         (scan w l (process_ticker w st t)).
Proof.
  unfold alerted_since. rewrite scan_cons.
  destruct (scan_extends w l (process_ticker w st t)) as (ps & ls & _ & Hls).
  rewrite Hls, drop_app_length, process_ticker_alerted, <- app_assoc,
    drop_app_length.
  reflexivity.
Qed.

Lemma posted_since_nil (w : World) (st : RunState) :
  posted_since st (scan w [] st) = [] ∧ alerted_since st (scan w [] st) = [].
Proof. unfold posted_since, alerted_since. simpl. by rewrite !drop_all. Qed.

(** X15.  What a scan posts is about levels that were reached and tickers
    that were scanned: a threshold message names a ticker of the scan set,
    a configured level and a change at or above that level; a pre-breakout
    message names a ticker of the scan set and lists at least two
    triggers. *)
Theorem posts_are_about_reached_levels (w : World) (scan_set : list string)
    (st : RunState) :
  Forall (fun p =>
            subject_ticker (p_subject p) ∈ scan_set
            ∧ match p_subject p with
              | ThresholdSubject _ change th =>
                  th ∈ THRESHOLDS
                  ∧ PrimFloat.leb (Py.float_of_Z th) change = true
              | PrebreakSubject _ trs _ => (2 ≤ length trs)%nat
              end)
         (posted_since st (scan w scan_set st)).
Proof.
  assert (Hone : ∀ s t,
    Forall (fun p =>
              subject_ticker (p_subject p) = t
              ∧ match p_subject p with
                | ThresholdSubject _ change th =>
                    th ∈ THRESHOLDS
                    ∧ PrimFloat.leb (Py.float_of_Z th) change = true
                | PrebreakSubject _ trs _ => (2 ≤ length trs)%nat
                end)
           (added_posts w t (analyze_ticker w t (rs_alerts s)))).
  { intros s t. apply added_posts_Forall.
    - intros res th Hres Hth. simpl. split; [reflexivity|].
      rewrite (analyze_ticker_new_thresholds _ _ _ _ Hres) in Hth.
      apply elem_of_fresh_thresholds in Hth. tauto.
    - intros res Hres Hhit. simpl. split; [reflexivity|].
      rewrite (analyze_ticker_prebreak_hit _ _ _ _ Hres) in Hhit.
      apply andb_true_iff in Hhit as [Hlen _]. by apply Nat.leb_le. }
  revert st. induction scan_set as [|t l IH]; intros st.
  - rewrite (proj1 (posted_since_nil w st)). constructor.
  - rewrite posted_since_cons. apply Forall_app. split.
    + eapply Forall_impl; [apply Hone|]. simpl.
      intros p [-> Hp]. split; [left|exact Hp].
    + eapply Forall_impl; [apply IH|]. simpl.
      intros p [Hin Hp]. split; [by right|exact Hp].
Qed.

(** X16.  The alert log and the messages of a scan go together: the log
    entries added are, in order, the ticker and label of the messages
    posted, and each message is marked delivered exactly when the webhook
    answered it with status 200 or 204. *)
Theorem log_matches_posts (w : World) (scan_set : list string)
    (st : RunState) :
  alerted_since st (scan w scan_set st)
  = map post_entry (posted_since st (scan w scan_set st))
  ∧ Forall (fun p =>
              p_delivered p = true
              ↔ discord_http w (p_subject p) (p_body p) = Return 200
                ∨ discord_http w (p_subject p) (p_body p) = Return 204)
           (posted_since st (scan w scan_set st)).
Proof.
  assert (Hsend : ∀ subject body,
            send_discord w subject body = true
            ↔ discord_http w subject body = Return 200
              ∨ discord_http w subject body = Return 204).
  { intros subject body. unfold send_discord.
    destruct (discord_http w subject body) as [e|status].
    - split; [discriminate|]. intros [[=]|[=]].
    - rewrite orb_true_iff, !Z.eqb_eq. split.
      + intros [->| ->]; auto.
      + intros [[= ->]|[= ->]]; auto. }
  assert (Hone : ∀ t r,
            added_labels t r = map post_entry (added_posts w t r)).
  { intros t [res|]; [|reflexivity]. simpl.
    unfold threshold_labels. rewrite map_app, map_map. f_equal.
    destruct (prebreak_hit res); reflexivity. }
  split.
  - revert st. induction scan_set as [|t l IH]; intros st.
    + destruct (posted_since_nil w st) as [-> ->]. reflexivity.
    + rewrite posted_since_cons, alerted_since_cons, map_app, IH, Hone.
      reflexivity.
  - apply (scan_invariant w (fun _ => True) _ (fun _ => True)); try done.
    + intros s t _. apply added_posts_Forall; intros; apply Hsend.
    + intros s t _. apply Forall_true. done.
Qed.

(** ** The run: hot list, untouched tickers, stored levels *)

Lemma added_labels_tickers (t : string) (r : option Result) :
  (∀ res, r = Some res → new_thresholds res ≠ [] ∨ prebreak_hit res = true) →
  (list_to_set (map fst (added_labels t r)) : gset string)
  = match r with Some _ => {[t]} | None => ∅ end.
Proof.
  intros Hsig. destruct r as [res|]; [|reflexivity]. simpl.
  specialize (Hsig res eq_refl). unfold threshold_labels.
  rewrite map_app, map_map. simpl.
  apply set_eq. intros x.
  rewrite elem_of_list_to_set, elem_of_app, elem_of_singleton. split.
  - intros [Hx|Hx].
    + apply list_elem_of_In, in_map_iff in Hx as (th & <- & _). reflexivity.
    + destruct (prebreak_hit res); simpl in Hx.
      * by apply list_elem_of_singleton in Hx.
      * by apply elem_of_nil in Hx.
  - intros ->. destruct Hsig as [Hnew|Hhit].
    + left. destruct (new_thresholds res) as [|th ths]; [done|]. simpl. left.
    + right. rewrite Hhit. simpl. left.
Qed.

Lemma process_ticker_hot (w : World) (st : RunState) (t : string) :
  rs_hot (process_ticker w st t)
  = rs_hot st
    ∪ list_to_set (map fst (added_labels t (analyze_ticker w t (rs_alerts st)))).
Proof.
  rewrite added_labels_tickers.
  - destruct (analyze_ticker w t (rs_alerts st)) as [res|] eqn:Hres.
    + destruct (process_ticker_Some w st t res Hres) as (_ & _ & -> & _).
      set_solver.
    + rewrite process_ticker_None by exact Hres. set_solver.
  - intros res Hres. apply analyze_ticker_Some in Hres.
    destruct Hres as (? & ? & ? & ? & ? & ? & ? & ? & ? & ? & ? & ? & H).
    exact H.
Qed.

(** X17.  After a scan the hot list is the hot list before it together with
    the tickers of the alerts logged during it: it never shrinks, every
    ticker that alerted is on it, and nothing else is added. *)
Theorem hot_list_grows_by_alerted (w : World) (scan_set : list string)
    (st : RunState) :
  rs_hot (scan w scan_set st)
  = rs_hot st
    ∪ list_to_set (map fst (alerted_since st (scan w scan_set st))).
Proof.
  revert st. induction scan_set as [|t l IH]; intros st.
  - rewrite (proj2 (posted_since_nil w st)). simpl. set_solver.
  - rewrite alerted_since_cons, map_app, list_to_set_app_L, scan_cons, IH,
      process_ticker_hot.
    set_solver.
Qed.

Lemma process_ticker_other (w : World) (st : RunState) (u t : string) :
  t ≠ u → rs_alerts (process_ticker w st u) !! t = rs_alerts st !! t.
Proof.
  intros Hne.
  destruct (analyze_ticker w u (rs_alerts st)) as [res|] eqn:Hres.
  - destruct (process_ticker_Some w st u res Hres) as (_ & _ & _ & Hother & _).
    by apply Hother.
  - rewrite process_ticker_None by exact Hres. reflexivity.
Qed.

(** X18.  A ticker outside the scan set is left as it is: its alert record
    is the same after the scan, and it is on the hot list after the scan
    exactly if it was before. *)
Theorem unscanned_ticker_is_untouched (w : World) (scan_set : list string)
    (st : RunState) (t : string) :
  t ∉ scan_set →
  rs_alerts (scan w scan_set st) !! t = rs_alerts st !! t
  ∧ (t ∈ rs_hot (scan w scan_set st) ↔ t ∈ rs_hot st).
Proof.
  revert st. induction scan_set as [|u l IH]; intros st Hnot.
  - by split.
  - apply not_elem_of_cons in Hnot as [Hne Hnot]. rewrite scan_cons.
    destruct (IH (process_ticker w st u) Hnot) as [-> ->].
    split; [by apply process_ticker_other|].
    rewrite process_ticker_hot, elem_of_union, elem_of_list_to_set.
    split; [|by left]. intros [Hin|Hin]; [exact Hin|].
    apply list_elem_of_In, in_map_iff in Hin as ([x lbl] & Hx & Hin).
    simpl in Hx. subst x. apply list_elem_of_In in Hin.
    destruct (analyze_ticker w u (rs_alerts st)) as [res|];
      simpl in Hin; [|by apply elem_of_nil in Hin].
    apply elem_of_app in Hin as [Hin|Hin].
    + unfold threshold_labels in Hin.
      apply list_elem_of_In, in_map_iff in Hin as (th & [= -> _] & _).
      contradiction.
    + destruct (prebreak_hit res); [|by apply elem_of_nil in Hin].
      apply list_elem_of_singleton in Hin. injection Hin as -> _.
      contradiction.
Qed.

Lemma unscanned_ticker_is_untouched_witness :
  rs_alerts (scan (Sample.world Sample.hist 204) ["BBB"] Sample.seen) !! "AAA"
  = rs_alerts Sample.seen !! "AAA"
  ∧ ("AAA" ∈ rs_hot (scan (Sample.world Sample.hist 204) ["BBB"] Sample.seen)
     ↔ "AAA" ∈ rs_hot Sample.seen).
Proof.
  apply (unscanned_ticker_is_untouched (Sample.world Sample.hist 204)
           ["BBB"] Sample.seen "AAA").
  intros Hin. apply list_elem_of_singleton in Hin. discriminate Hin.
Defined.




(** ** The run: scanning twice *)

Lemma analyze_ticker_same_record (w : World) (t : string) (a a' : Alerts) :
  a !! t = a' !! t → analyze_ticker w t a = analyze_ticker w t a'.
Proof.
  intros Heq. rewrite !analyze_ticker_reading.
  destruct (reading w t) as [r|]; [|reflexivity]. simpl.
  unfold verdict, recorded_thresholds, recorded_prebreak. rewrite Heq.
  reflexivity.
Qed.

(** Once a ticker has been processed, evaluating it again on the same data
    gives no signal. *)
Lemma quiet_after_process (w : World) (st : RunState) (t : string) :
  analyze_ticker w t (rs_alerts (process_ticker w st t)) = None.
Proof.
  destruct (analyze_ticker w t (rs_alerts st)) as [res|] eqn:Hres.
  2:{ rewrite process_ticker_None by exact Hres. exact Hres. }
  destruct (process_ticker_Some w st t res Hres)
    as (_ & _ & _ & _ & Hlevels & Hlatch).
  destruct (analyze_ticker_verdict _ _ _ _ Hres) as (r & Hr & Hv).
  destruct (verdict_Some _ _ _ _ Hv) as (_ & _ & _ & Hnew & Hhit & _).
  rewrite analyze_ticker_reading, Hr. simpl. apply verdict_None. split.
  - destruct (fresh_thresholds (reading_change r)
                (list_to_set (recorded_thresholds
                   (rs_alerts (process_ticker w st t)) t)))
      as [|th ths] eqn:Hfresh; [reflexivity|].
    assert (Hin : th ∈ fresh_thresholds (reading_change r)
                    (list_to_set (recorded_thresholds
                       (rs_alerts (process_ticker w st t)) t))).
    { rewrite Hfresh. left. }
    apply elem_of_fresh_thresholds in Hin as (Hth & Hle & Hnot).
    exfalso. apply Hnot, elem_of_list_to_set, Hlevels.
    destruct (decide (th ∈ recorded_thresholds (rs_alerts st) t)) as [|Hold];
      [by right|].
    left. rewrite Hnew. apply elem_of_fresh_thresholds.
    split; [exact Hth|]. split; [exact Hle|].
    by rewrite elem_of_list_to_set.
  - rewrite Hlatch, Hhit.
    destruct (2 <=? length (reading_triggers r))%nat,
      (recorded_prebreak (rs_alerts st) t); reflexivity.
Qed.

Lemma quiet_preserved (w : World) (st : RunState) (t u : string) :
  analyze_ticker w t (rs_alerts st) = None →
  analyze_ticker w t (rs_alerts (process_ticker w st u)) = None.
Proof.
  intros Hq. destruct (decide (t = u)) as [->|Hne].
  - rewrite process_ticker_None by exact Hq. exact Hq.
  - rewrite <- Hq. apply analyze_ticker_same_record.
    by apply process_ticker_other.
Qed.

Lemma quiet_through_scan (w : World) (l : list string) (st : RunState)
    (t : string) :
  analyze_ticker w t (rs_alerts st) = None →
  analyze_ticker w t (rs_alerts (scan w l st)) = None.
Proof.
  revert st. induction l as [|u l IH]; intros st Hq; [exact Hq|].
  rewrite scan_cons. apply IH. by apply quiet_preserved.
Qed.

Lemma quiet_after_scan (w : World) (l : list string) (st : RunState)
    (t : string) :
  t ∈ l → analyze_ticker w t (rs_alerts (scan w l st)) = None.
Proof.
  revert st. induction l as [|u l IH]; intros st Hin.
  - by apply elem_of_nil in Hin.
  - rewrite scan_cons. apply elem_of_cons in Hin as [->|Hin].
    + apply quiet_through_scan, quiet_after_process.
    + by apply IH.
Qed.

Lemma scan_of_quiet (w : World) (l : list string) (st : RunState) :
  (∀ t, t ∈ l → analyze_ticker w t (rs_alerts st) = None) →
  scan w l st = st.
Proof.
  induction l as [|u l IH]; intros Hq; [reflexivity|].
  rewrite scan_cons, process_ticker_None by (apply Hq; left).
  apply IH. intros t Ht. apply Hq. by right.
Qed.


Example second_scan_sample :
  length (rs_posts (scan (Sample.world Sample.hist 204) ["AAA"; "BBB"]
                         Sample.fresh)) = 4%nat
  ∧ scan (Sample.world Sample.hist 204) ["AAA"; "BBB"]
      (scan (Sample.world Sample.hist 204) ["AAA"; "BBB"] Sample.fresh)
    = scan (Sample.world Sample.hist 204) ["AAA"; "BBB"] Sample.fresh.
Proof.
  split; [vm_compute; reflexivity|].
  apply scan_of_quiet. intros t Ht. by apply quiet_after_scan.
Qed.

(** ** A whole run, once more *)

Lemma get_tickers_nonempty w state file tickers state1 file1 :
  get_tickers w state file = Completed (tickers, state1, file1) →
  tickers ≠ [].
Proof.
  unfold get_tickers.
  set (refresh := match symbols_http w with Raise _ => _ | Return _ => _ end).
  assert (Hrefresh : refresh = Completed (tickers, state1, file1) →
                     tickers ≠ []).
  { subst refresh. destruct (symbols_http w) as [e|extracted]; [done|].
    destruct extracted as [|x xs]; [done|].
    destruct (now_ts (clock w)) as [e|now]; [done|].
    intros [= <- <- <-]. discriminate. }
  destruct (st_tickers state) as [[|t ts]|]; try exact Hrefresh.
  destruct (now_ts (clock w)) as [e|now]; [done|].
  destruct (_ <? DAY_SECONDS); [|exact Hrefresh].
  intros [= <- <- <-]. discriminate.
Qed.

Lemma batches_for_nonempty {A} (B : nat) (t : float) (tickers b : list A)
    (idx total : Z) :
  (0 < B)%nat → tickers ≠ [] →
  batches_for B t tickers = Return (b, idx, total) →
  b ≠ [] ∧ (length b ≤ B)%nat ∧ (∀ x, x ∈ b → x ∈ tickers).
Proof.
  intros HB Hne. unfold batches_for.
  destruct tickers as [|x xs] eqn:Htk; [done|]. rewrite <- Htk in *.
  destruct (slot_of_time t) as [e|s]; [done|]. simpl.
  destruct (batch_for_slot_lookup B tickers s Hne) as (b' & Hb' & ->).
  intros [= <- <- <-].
  rewrite chunks_lookup in Hb' by exact HB.
  destruct (Nat.ltb_spec
              (Z.to_nat (s mod Z.of_nat (length (chunks B tickers))) * B)
              (length tickers)) as [Hin|]; [|discriminate].
  injection Hb' as <-. split; [|split].
  - intros Hnil. apply (f_equal length) in Hnil.
    rewrite length_take, length_drop in Hnil. simpl in Hnil. lia.
  - rewrite length_take. lia.
  - intros y Hy. apply elem_of_take in Hy as (i & Hy & _).
    rewrite lookup_drop in Hy. by eapply list_elem_of_lookup_2.
Qed.

Lemma main_run (w : World) (file file' : File) (st : RunState) :
  main w file = (file', Completed (Some st)) →
  ∃ tickers state1 file1 batch idx total now,
    get_tickers w (load_state file) file = Completed (tickers, state1, file1)
    ∧ batches_for_run (clock w) tickers = Return (batch, idx, total)
    ∧ now_ts (clock_end w) = Return now
    ∧ st = scan w (scan_set_of batch (hot_list_of (load_state file)))
             (initial_state (load_state file))
    ∧ file' = save_state w (closing_state tickers state1 st now) file1.
Proof.
  unfold main, initial_state.
  destruct (get_tickers w (load_state file) file)
    as [why|[[tickers state1] file1]] eqn:Hget; [intros [=]|].
  destruct (batches_for_run (clock w) tickers)
    as [e|[[batch idx] total]] eqn:Hbatch; [intros [=]|].
  destruct (now_ts (clock_end w)) as [e|now] eqn:Hnow;
    [destruct batch; intros [=]|].
  intros Hmain. exists tickers, state1, file1, batch, idx, total, now.
  destruct batch as [|b batch]; [discriminate Hmain|].
  injection Hmain as <- <-. repeat split; reflexivity || assumption.
Qed.

(** X21.  A run never ends on the empty-batch return: when [get_tickers]
    returns, the tickers are not empty, and the batch of a non-empty
    universe is not empty; so a run either aborts or scans. *)
Theorem main_never_skips_the_scan (w : World) (file file' : File) :
  main w file ≠ (file', Completed None).
Proof.
  unfold main.
  destruct (get_tickers w (load_state file) file)
    as [why|[[tickers state1] file1]] eqn:Hget; [discriminate|].
  pose proof (get_tickers_nonempty _ _ _ _ _ _ Hget) as Hne.
  destruct (batches_for_run (clock w) tickers)
    as [e|[[batch idx] total]] eqn:Hbatch; [discriminate|].
  unfold batches_for_run in Hbatch.
  destruct (batches_for_nonempty BATCH_SIZE _ _ _ _ _
              ltac:(unfold BATCH_SIZE; lia) Hne Hbatch) as (Hb & _).
  destruct batch as [|b batch]; [done|].
  destruct (now_ts (clock_end w)); discriminate.
Qed.

(** X22.  A completed run that writes its file only adds to the stored
    state: the stored hot list, the stored levels of every ticker and the
    stored latches are all still there in the file it leaves, which also
    holds a non-empty ticker list and the time of the run. *)
Theorem stored_state_only_grows (w : World) (file file' : File)
    (st : RunState) :
  main w file = (file', Completed (Some st)) →
  write_result w = WriteOk →
  hot_list_of (load_state file) ⊆ hot_list_of (load_state file')
  ∧ (∀ t th, th ∈ recorded_thresholds (alerts_of (load_state file)) t →
             th ∈ recorded_thresholds (alerts_of (load_state file')) t)
  ∧ (∀ t, recorded_prebreak (alerts_of (load_state file)) t = true →
          recorded_prebreak (alerts_of (load_state file')) t = true)
  ∧ (∃ tickers, st_tickers (load_state file') = Some tickers ∧ tickers ≠ [])
  ∧ (∃ now, st_last_run (load_state file') = Some now
            ∧ now_ts (clock_end w) = Return now).
Proof.
  intros Hmain Hok.
  destruct (main_run w file file' st Hmain)
    as (tickers & state1 & file1 & batch & idx & total & now
        & Hget & _ & Hnow & Hst & ->).
  unfold save_state. rewrite Hok. simpl.
  unfold alerts_of at 2 4. unfold hot_list_of at 2. simpl.
  rewrite list_to_set_elements_L.
  set (l := scan_set_of batch (hot_list_of (load_state file))) in *.
  set (s0 := initial_state (load_state file)) in *.
  split; [|split; [|split; [|split]]].
  - intros t Ht. rewrite Hst.
    destruct (scan_invariant w (fun s => t ∈ rs_hot s) (fun _ => True)
                (fun _ => True)) with (l := l) (st := s0) as (H & _);
      try done; try (intros; by apply Forall_true).
    intros s u Hs. by apply process_ticker_keeps_hot.
  - intros t th Hth. rewrite Hst.
    destruct (scan_invariant w
                (fun s => th ∈ recorded_thresholds (rs_alerts s) t)
                (fun _ => True) (fun _ => True)) with (l := l) (st := s0)
      as (H & _); try done; try (intros; by apply Forall_true).
    intros s u Hs. by apply process_ticker_keeps_levels.
  - intros t Ht. rewrite Hst.
    destruct (scan_invariant w
                (fun s => recorded_prebreak (rs_alerts s) t = true)
                (fun _ => True) (fun _ => True)) with (l := l) (st := s0)
      as (H & _); try done; try (intros; by apply Forall_true).
    intros s u Hs. by apply process_ticker_keeps_latch.
  - exists tickers. split; [reflexivity|].
    exact (get_tickers_nonempty _ _ _ _ _ _ Hget).
  - exists now. by split.
Qed.

Lemma stored_state_only_grows_witness :
  ∃ file' st,
    main (Sample.world Sample.hist 204)
         (Stored {| st_tickers := None; st_tickers_fetched_at := None;
                    st_alerts_sent := Some (rs_alerts Sample.seen);
                    st_hot_list := Some ["AAA"]; st_last_run := None |})
    = (file', Completed (Some st))
    ∧ hot_list_of (load_state file') = {["AAA"; "BBB"]}
    ∧ hot_list_of
        (load_state
           (Stored {| st_tickers := None; st_tickers_fetched_at := None;
                      st_alerts_sent := Some (rs_alerts Sample.seen);
                      st_hot_list := Some ["AAA"]; st_last_run := None |}))
      ⊆ hot_list_of (load_state file').
Proof.
  destruct (main (Sample.world Sample.hist 204)
              (Stored {| st_tickers := None; st_tickers_fetched_at := None;
                         st_alerts_sent := Some (rs_alerts Sample.seen);
                         st_hot_list := Some ["AAA"]; st_last_run := None |}))
    as [file' [why|[st|]]] eqn:Hmain;
    try (vm_compute in Hmain; discriminate Hmain).
  exists file', st. split; [reflexivity|]. split.
  - vm_compute in Hmain. injection Hmain as <- <-. vm_compute. reflexivity.
  - apply (stored_state_only_grows (Sample.world Sample.hist 204) _ file' st
             Hmain).
    reflexivity.
Defined.



(** ** The ticker universe and the provider *)

(** X24.  When the stored ticker list is missing, empty or at least a day
    old, the run depends on the symbol provider: if the request fails, the
    exception ends the run, and if no symbol is extracted, the run exits;
    in both cases nothing was scanned and the state file is as it was. *)
Theorem refresh_failure_aborts_untouched (w : World) (file : File) :
  (st_tickers (load_state file) = None
   ∨ st_tickers (load_state file) = Some []
   ∨ ∃ now, now_ts (clock w) = Return now
            ∧ DAY_SECONDS
              ≤ now - default 0 (st_tickers_fetched_at (load_state file))) →
  (∀ e, symbols_http w = Raise e → main w file = (file, Aborted (Uncaught e)))
  ∧ (symbols_http w = Return [] → main w file = (file, Aborted SystemExit)).
Proof.
  intros Hneed.
  split; [intros e He | intros He]; unfold main, get_tickers; rewrite He;
    (destruct Hneed as [-> | [-> | (now & -> & Hold)]]; [done | done |]);
    (destruct (st_tickers (load_state file)) as [[|t ts]|]; [done | | done]);
    (destruct (Z.ltb_spec
                 (now - default 0 (st_tickers_fetched_at (load_state file)))
                 DAY_SECONDS); [lia | done]).
Qed.

Lemma refresh_failure_aborts_untouched_witness :
  main (with_symbols (Sample.world Sample.hist 204) Text.strip_upper
          (Return [Some "BRK.B"; None; Some "A/B"]))
       Missing
  = (Missing, Aborted SystemExit).
Proof.
  apply (proj2 (refresh_failure_aborts_untouched
                  (with_symbols (Sample.world Sample.hist 204)
                     Text.strip_upper
                     (Return [Some "BRK.B"; None; Some "A/B"]))
                  Missing (or_introl eq_refl))).
  vm_compute. reflexivity.
Defined.

(** X25.  While the stored ticker list is not empty and younger than a day,
    the run does not use the symbol provider: whatever the provider would
    answer, the run ends the same way and leaves the same file. *)
Theorem fresh_universe_skips_provider (w : World) (file : File)
    (t : string) (ts : list string) (now : Z)
    (normalise : string -> string)
    (answer : outcome (list (option string))) :
  st_tickers (load_state file) = Some (t :: ts) →
  now_ts (clock w) = Return now →
  now - default 0 (st_tickers_fetched_at (load_state file)) < DAY_SECONDS →
  main (with_symbols w normalise answer) file = main w file.
Proof.
  intros Htickers Hnow Hfresh.
  assert (Hget : ∀ w', clock w' = clock w →
            get_tickers w' (load_state file) file
            = Completed (t :: ts, load_state file, file)).
  { intros w' Hclock. unfold get_tickers. rewrite Htickers, Hclock, Hnow.
    destruct (Z.ltb_spec
                (now - default 0 (st_tickers_fetched_at (load_state file)))
                DAY_SECONDS); [reflexivity | lia]. }
  unfold main. cbv zeta.
  rewrite (Hget w eq_refl), (Hget (with_symbols w normalise answer) eq_refl).
  reflexivity.
Qed.

Lemma fresh_universe_skips_provider_witness :
  main (with_symbols (Sample.world Sample.hist 204) Text.strip_upper
          (Raise ProviderError))
       (Stored {| st_tickers := Some ["AAA"; "BBB"];
                  st_tickers_fetched_at := Some 1699990000;
                  st_alerts_sent := None; st_hot_list := None;
                  st_last_run := None |})
  = main (Sample.world Sample.hist 204)
       (Stored {| st_tickers := Some ["AAA"; "BBB"];
                  st_tickers_fetched_at := Some 1699990000;
                  st_alerts_sent := None; st_hot_list := None;
                  st_last_run := None |}).
Proof.
  apply (fresh_universe_skips_provider (Sample.world Sample.hist 204)
           _ "AAA" ["BBB"] 1700000000).
  - reflexivity.
  - vm_compute. reflexivity.
  - vm_compute. reflexivity.
Defined.

(** ** A run that cannot write *)


